(** * soil-monitor: a shallow embedding of the sensor back ends, the
      factory, the two services and the start-up sequence.

    Source files embedded here:
    - [hardware/soil_monitor.py]: import guard, [SoilMonitorFactory],
      [SoilMonitor], [_AdafruitStemmaSoilMonitor], [_MockedSoilMonitor];
    - [services/soil.py]: the module body (the relative import of line 1
      and the module global [soil_monitor]), [SoilService];
    - [services/health.py]: [HealthService];
    - [app.py]: the imports, the module globals [soil_service] and
      [health_service], the two route handlers.

    Python floats are IEEE 754 binary64 values, modelled by the standard
    library's [spec_float] with [prec = 53] and [emax = 1024]. *)

From Stdlib Require Import ZArith Lia Bool Sorted.
From Stdlib Require Import Floats.SpecFloat.
From stdpp Require Import base strings gmap list.

(** ** Python values, exceptions and results *)

Inductive exn : Type :=
| KeyError (key : string)
| ValueError (arg : string)
| TypeError (arg : string)
| AttributeError (arg : string)
| OverflowError (arg : string)
| NotImplementedError
| ImportError (msg : string)
| ModuleNotFoundError (name : string)
| OSError (arg : string)
| RuntimeError (arg : string).

Inductive result (A : Type) : Type :=
| Ok (a : A)
| Raise (e : exn).
Arguments Ok {A} a.
Arguments Raise {A} e.

Inductive value : Type :=
| VInt (z : Z)
| VFloat (f : spec_float)
| VStr (s : string).

(** ** Values of floats as integers

    Every finite float of a format with [emin] as least exponent is an
    integer multiple of [2 ^ emin]; [grid] is that integer.  The results of
    the operations are described on these integers. *)

Definition grid (prec emax : Z) (x : spec_float) : Z :=
  match x with
  | S754_finite s m e => cond_Zopp s (Z.pos m * 2 ^ (e - emin prec emax))
  | _ => 0
  end%Z.

(** [X / 2 ^ n] rounded to the nearest integer, ties to the even one. *)
Definition rne (X n : Z) : Z :=
  let q := (X / 2 ^ n)%Z in
  let r := (X mod 2 ^ n)%Z in
  if (2 * r <? 2 ^ n)%Z then q
  else if (2 ^ n <? 2 * r)%Z then (q + 1)%Z
  else if Z.even q then q else (q + 1)%Z.

(** [X] rounded to [prec] significant bits. *)
Definition round_grid (prec X : Z) : Z :=
  let n := (Z.log2 X + 1 - prec)%Z in
  if (n <=? 0)%Z then X else (rne X n * 2 ^ n)%Z.

(** [X] shifted right by [k] bits, with the round bit and the sticky bit. *)
Definition shr_of (X k : Z) : shr_record :=
  let r := (X mod 2 ^ k)%Z in
  {| shr_m := (X / 2 ^ k)%Z;
     shr_r := (2 ^ k <=? 2 * r)%Z;
     shr_s := negb (r =? 0)%Z && negb (2 * r =? 2 ^ k)%Z |}.

(** Zero, or a valid float that is positive. *)
Definition nonneg_valid (prec emax : Z) (x : spec_float) : bool :=
  match x with
  | S754_zero _ => true
  | S754_finite false m e => bounded prec emax m e
  | _ => false
  end.

(** ** binary64 arithmetic as Python uses it *)

Module Float.
Definition prec : Z := 53.
Definition emax : Z := 1024.

Definition sub : spec_float → spec_float → spec_float := SFsub prec emax.
Definition add : spec_float → spec_float → spec_float := SFadd prec emax.
Definition mul : spec_float → spec_float → spec_float := SFmul prec emax.
Definition leb : spec_float → spec_float → bool := SFleb.
Definition ltb : spec_float → spec_float → bool := SFltb.

(** [float(n)] for a Python int: round to nearest, ties to even. *)
Definition of_int (n : Z) : spec_float := binary_normalize prec emax n 0 false.

(** [m * 2**e] as a float. *)
Definition ldexp (m e : Z) : spec_float := binary_normalize prec emax m e false.

(** [int(x)] for a Python float: truncation toward zero; [nan] and the
    infinities raise. *)
Definition to_int (x : spec_float) : result Z :=
  match x with
  | S754_zero _ => Ok 0%Z
  | S754_finite s m e => Ok (cond_Zopp s (Z.shiftl (Z.pos m) e))
  | S754_infinity _ => Raise (OverflowError "cannot convert float infinity to integer")
  | S754_nan => Raise (ValueError "cannot convert float NaN to integer")
  end.

(** A value [time.time()] can return: a finite double that is not
    negative (seconds since the epoch). *)
Definition timestamp : spec_float → bool := nonneg_valid prec emax.

(** The value in units of [2 ** -1074]. *)
Definition grid : spec_float → Z := grid prec emax.
End Float.

Arguments Float.sub : simpl never.
Arguments Float.add : simpl never.
Arguments Float.mul : simpl never.
Arguments Float.of_int : simpl never.
Arguments Float.ldexp : simpl never.
Arguments Float.to_int : simpl never.

(** ** The platform the process runs on, and the process state

    The platform holds what the code reads but never writes: the
    environment, which imports succeed, the I2C driver, the random source
    and the clock.  The oracles of the driver, of the random source and of
    the clock are indexed by the number of calls made so far. *)

Inductive bus : Type := I2C_bus.

Record seesaw : Type := { ss_bus : bus; ss_addr : Z }.

Record platform : Type := {
  (** [os.environ] *)
  environ : gmap string string;
  (** what [import name] does when [name] is not yet in [sys.modules]:
      [None] loads the module, [Some e] raises [e] *)
  import_outcome : string → option exn;
  (** [board.I2C()] *)
  drv_I2C : result bus;
  (** [Seesaw(i2c_bus, addr=...)] *)
  drv_Seesaw : bus → Z → result seesaw;
  (** [ss.moisture_read()], by call number *)
  drv_moisture_read : nat → result Z;
  (** [ss.get_temp()], by call number *)
  drv_get_temp : nat → result spec_float;
  (** the builtin [round(x, ndigits)] on floats *)
  py_round : spec_float → Z → spec_float;
  (** raw draws of the random source *)
  entropy : nat → Z;
  (** successive readings of [time.time()] *)
  clock : nat → spec_float
}.

Definition loc : Type := nat.

(** Instances of the two back-end classes, as they sit on the heap. *)
Inductive backend_obj : Type :=
| Mocked_obj
| AdafruitStemma_obj (loaded : bool) (ss : option seesaw).

(** Ghost record of the interface methods invoked on back-end instances. *)
Inductive method : Type := m_get_soil_saturation | m_get_air_temp | m_get_name.

Record state : Type := {
  sys_modules : gset string;
  stdout : list string;
  heap : list backend_obj;
  rng_pos : nat;
  clock_pos : nat;
  hw_pos : nat;
  calls : list (loc * method)
}.

Definition set_sys_modules (f : gset string → gset string) (st : state) : state :=
  {| sys_modules := f (sys_modules st); stdout := stdout st; heap := heap st;
     rng_pos := rng_pos st; clock_pos := clock_pos st; hw_pos := hw_pos st;
     calls := calls st |}.
Definition set_stdout (f : list string → list string) (st : state) : state :=
  {| sys_modules := sys_modules st; stdout := f (stdout st); heap := heap st;
     rng_pos := rng_pos st; clock_pos := clock_pos st; hw_pos := hw_pos st;
     calls := calls st |}.
Definition set_heap (f : list backend_obj → list backend_obj) (st : state) : state :=
  {| sys_modules := sys_modules st; stdout := stdout st; heap := f (heap st);
     rng_pos := rng_pos st; clock_pos := clock_pos st; hw_pos := hw_pos st;
     calls := calls st |}.
Definition set_rng_pos (f : nat → nat) (st : state) : state :=
  {| sys_modules := sys_modules st; stdout := stdout st; heap := heap st;
     rng_pos := f (rng_pos st); clock_pos := clock_pos st; hw_pos := hw_pos st;
     calls := calls st |}.
Definition set_clock_pos (f : nat → nat) (st : state) : state :=
  {| sys_modules := sys_modules st; stdout := stdout st; heap := heap st;
     rng_pos := rng_pos st; clock_pos := f (clock_pos st); hw_pos := hw_pos st;
     calls := calls st |}.
Definition set_hw_pos (f : nat → nat) (st : state) : state :=
  {| sys_modules := sys_modules st; stdout := stdout st; heap := heap st;
     rng_pos := rng_pos st; clock_pos := clock_pos st; hw_pos := f (hw_pos st);
     calls := calls st |}.
Definition set_calls (f : list (loc * method) → list (loc * method)) (st : state) : state :=
  {| sys_modules := sys_modules st; stdout := stdout st; heap := heap st;
     rng_pos := rng_pos st; clock_pos := clock_pos st; hw_pos := hw_pos st;
     calls := f (calls st) |}.

(** The state of a fresh interpreter: nothing imported, printed or
    allocated yet. *)
Definition initial : state :=
  {| sys_modules := ∅; stdout := []; heap := []; rng_pos := 0; clock_pos := 0;
     hw_pos := 0; calls := [] |}.

(** ** The monad of Python computations: a result or an exception, and the
    state either way. *)

Definition M (A : Type) : Type := platform → state → result A * state.

#[global] Instance M_ret : MRet M := λ A a _ st, (Ok a, st).
#[global] Instance M_bind : MBind M := λ A B f m pf st,
  match m pf st with
  | (Ok a, st') => f a pf st'
  | (Raise e, st') => (Raise e, st')
  end.

Definition raise {A : Type} (e : exn) : M A := λ _ st, (Raise e, st).
Definition lift {A : Type} (r : result A) : M A := λ _ st, (r, st).
Definition ask : M platform := λ pf st, (Ok pf, st).
Definition get : M state := λ _ st, (Ok st, st).
Definition modify (f : state → state) : M unit := λ _ st, (Ok tt, f st).

(** [try: body except ...: handler] *)
Definition try_except {A : Type} (body : M A) (handler : exn → M A) : M A :=
  λ pf st,
    match body pf st with
    | (Ok a, st') => (Ok a, st')
    | (Raise e, st') => handler e pf st'
    end.

(** The outcome of a computation as a value: what a caller that catches
    every exception sees. *)
Definition attempt {A : Type} (body : M A) : M (result A) :=
  λ pf st, let '(r, st') := body pf st in (Ok r, st').

(** ** Builtins and standard modules *)

Definition print (line : string) : M unit := modify (set_stdout (λ out, out ++ [line])).

(** Allocation of a back-end instance: the new object gets the next address. *)
Definition alloc (o : backend_obj) : M loc :=
  st ← get;
  modify (set_heap (λ h, h ++ [o]));;
  mret (length (heap st)).

Definition deref (l : loc) : M backend_obj :=
  st ← get;
  match heap st !! l with
  | Some o => mret o
  | None => raise (AttributeError "dangling reference")
  end.

Definition log_call (self : loc) (m : method) : M unit :=
  modify (set_calls (λ c, c ++ [(self, m)])).

Module os.
(** [os.getenv(name)]: [None] when the variable is not set. *)
Definition getenv (name : string) : M (option string) :=
  pf ← ask; mret (environ pf !! name).
End os.

Module sys.
(** [name in sys.modules] *)
Definition modules_contains (name : string) : M bool :=
  st ← get; mret (bool_decide (name ∈ sys_modules st)).
End sys.

(** [import name]: a module already in [sys.modules] is not loaded again;
    a load that raises leaves [sys.modules] as it was. *)
Definition import (name : string) : M unit :=
  loaded ← sys.modules_contains name;
  if (loaded : bool) then mret tt
  else
    pf ← ask;
    match import_outcome pf name with
    | None => modify (set_sys_modules (λ ms, ms ∪ {[ name ]}))
    | Some e => raise e
    end.

(** A relative import, [from ..name import x] with [level] dots, made in a
    module whose [__package__] is [package] (the dotted name, as the list
    of its parts): the absolute name of the module that is meant, after
    [_sanity_check] and [_resolve_name] of [importlib._bootstrap].  The
    import may climb to the top-level package and no further. *)
Definition resolve_name (name package : list string) (level : nat) : M (list string) :=
  match package with
  | [] => raise (ImportError "attempted relative import with no known parent package")
  | _ =>
      if decide (length package < level) then
        raise (ImportError "attempted relative import beyond top-level package")
      else mret (take (S (length package) - level) package ++ name)
  end.

Module time.
(** [time.time()] *)
Definition time : M spec_float :=
  pf ← ask; st ← get;
  modify (set_clock_pos S);;
  mret (clock pf (clock_pos st)).
End time.

(** The [random] module, after CPython's [Lib/random.py]: every function
    below draws once from the random source.  [_randbelow n] yields each of
    [0 .. n-1] for some draw, [random()] yields [k / 2**53] for
    [0 <= k < 2**53]. *)
Module random.
Definition draw : M Z :=
  pf ← ask; st ← get;
  modify (set_rng_pos S);;
  mret (entropy pf (rng_pos st)).

Definition _randbelow (n : Z) : M Z :=
  r ← draw; mret (r mod n)%Z.

(** [randrange(start, stop)] *)
Definition randrange (start stop : Z) : M Z :=
  let width := (stop - start)%Z in
  if (0 <? width)%Z then
    r ← _randbelow width; mret (start + r)%Z
  else raise (ValueError "empty range for randrange()").

(** [randint(a, b)] is [randrange(a, b+1)] *)
Definition randint (a b : Z) : M Z := randrange a (b + 1).

(** [random()] *)
Definition random : M spec_float :=
  r ← draw; mret (Float.ldexp (r mod 2 ^ 53) (-53)).

(** [uniform(a, b)] is [a + (b - a) * random()]; here with int arguments. *)
Definition uniform (a b : Z) : M spec_float :=
  r ← random;
  mret (Float.add (Float.of_int a) (Float.mul (Float.of_int (b - a)) r)).
End random.

(** The I2C driver ([board], [adafruit_seesaw.seesaw]): every call may
    return or raise, as the platform decides. *)
Module board.
Definition I2C : M bus := pf ← ask; lift (drv_I2C pf).
End board.

Module Seesaw.
Definition __init__ (i2c_bus : bus) (addr : Z) : M seesaw :=
  pf ← ask; lift (drv_Seesaw pf i2c_bus addr).

Definition moisture_read (self : seesaw) : M Z :=
  pf ← ask; st ← get;
  modify (set_hw_pos S);;
  lift (drv_moisture_read pf (hw_pos st)).

Definition get_temp (self : seesaw) : M spec_float :=
  pf ← ask; st ← get;
  modify (set_hw_pos S);;
  lift (drv_get_temp pf (hw_pos st)).
End Seesaw.

(** [round(x, ndigits)] *)
Definition round (x : spec_float) (ndigits : Z) : M spec_float :=
  pf ← ask; mret (py_round pf x ndigits).

(** ** hardware/soil_monitor.py *)

(** Lines 6-13: the guarded imports at the top of the module.  Only
    [NotImplementedError] is caught. *)
Definition import_guard : M unit :=
  try_except
    (import "time";;
     import "board";;
     import "adafruit_seesaw.seesaw";;
     print "Loaded adafruit components")
    (λ e, match e with
          | NotImplementedError => print "Unable to load adafruit components"
          | _ => raise e
          end).

Module _AdafruitStemmaSoilMonitor.
(** the attribute [self.loaded] *)
Definition loaded (self : loc) : M bool :=
  o ← deref self;
  match o with
  | AdafruitStemma_obj l _ => mret l
  | _ => raise (AttributeError "loaded")
  end.

(** the attribute [self.ss], set only by a construction that found the
    driver modules *)
Definition ss (self : loc) : M seesaw :=
  o ← deref self;
  match o with
  | AdafruitStemma_obj _ (Some dev) => mret dev
  | _ => raise (AttributeError "ss")
  end.

(** The instance is entered on the heap once its attributes are known;
    a construction that raises leaves no instance behind. *)
Definition __init__ : M loc :=
  let loaded := true in
  has_board ← sys.modules_contains "board";
  loaded ← (if (has_board : bool) then mret loaded
            else print "board was not loaded";; mret false);
  has_seesaw ← sys.modules_contains "adafruit_seesaw.seesaw";
  loaded ← (if (has_seesaw : bool) then mret loaded
            else print "adafruit_seesaw.seesaw was not loaded";; mret false);
  if (loaded : bool) then
    i2c_bus ← board.I2C;
    dev ← Seesaw.__init__ i2c_bus 0x36;
    alloc (AdafruitStemma_obj true (Some dev))
  else alloc (AdafruitStemma_obj false None).

Definition get_soil_saturation (self : loc) : M value :=
  log_call self m_get_soil_saturation;;
  l ← loaded self;
  if (l : bool) then
    dev ← ss self;
    v ← Seesaw.moisture_read dev;
    mret (VInt v)
  else
    print "Adafruit stemma device not set up, returning -1 for soil saturation";;
    mret (VInt (-1)).

Definition get_air_temp (self : loc) : M value :=
  log_call self m_get_air_temp;;
  l ← loaded self;
  if (l : bool) then
    dev ← ss self;
    t ← Seesaw.get_temp dev;
    r ← round t 1;
    mret (VFloat r)
  else
    print "Adafruit stemma device not set up, returning -1 for soil saturation";;
    mret (VInt (-1)).

Definition get_name (self : loc) : M string :=
  log_call self m_get_name;;
  mret "Adafruit Stemma".
End _AdafruitStemmaSoilMonitor.

Module _MockedSoilMonitor.
(** The class defines no [__init__]: construction only makes the instance. *)
Definition __init__ : M loc := alloc Mocked_obj.

Definition get_soil_saturation (self : loc) : M value :=
  log_call self m_get_soil_saturation;;
  n ← random.randint 0 101;
  mret (VInt n).

Definition get_air_temp (self : loc) : M value :=
  log_call self m_get_air_temp;;
  x ← random.uniform 0 50;
  mret (VFloat x).

Definition get_name (self : loc) : M string :=
  log_call self m_get_name;;
  mret "Mocked Soil Monitor".
End _MockedSoilMonitor.

(** What [register_soil_monitor] can be handed: one of the two classes,
    or (Python checks no types) an object that is false in a condition,
    such as [None]. *)
Inductive registered : Type :=
| class_AdafruitStemmaSoilMonitor
| class_MockedSoilMonitor
| py_None.

Definition truthy (r : registered) : bool :=
  match r with
  | py_None => false
  | _ => true
  end.

(** [soil_monitor()] *)
Definition call (r : registered) : M loc :=
  match r with
  | class_AdafruitStemmaSoilMonitor => _AdafruitStemmaSoilMonitor.__init__
  | class_MockedSoilMonitor => _MockedSoilMonitor.__init__
  | py_None => raise (TypeError "'NoneType' object is not callable")
  end.

(** Method calls on [self._soil_monitor] go to the class of the instance. *)
Module SoilMonitorInterface.
Definition get_soil_saturation (self : loc) : M value :=
  o ← deref self;
  match o with
  | Mocked_obj => _MockedSoilMonitor.get_soil_saturation self
  | AdafruitStemma_obj _ _ => _AdafruitStemmaSoilMonitor.get_soil_saturation self
  end.

Definition get_air_temp (self : loc) : M value :=
  o ← deref self;
  match o with
  | Mocked_obj => _MockedSoilMonitor.get_air_temp self
  | AdafruitStemma_obj _ _ => _AdafruitStemmaSoilMonitor.get_air_temp self
  end.

Definition get_name (self : loc) : M string :=
  o ← deref self;
  match o with
  | Mocked_obj => _MockedSoilMonitor.get_name self
  | AdafruitStemma_obj _ _ => _AdafruitStemmaSoilMonitor.get_name self
  end.
End SoilMonitorInterface.

Module SoilMonitorFactory.
Record t : Type := { _soil_monitors : gmap string registered }.

Definition __init__ : t := {| _soil_monitors := ∅ |}.

Definition register_soil_monitor (self : t) (key : string) (soil_monitor : registered) : t :=
  {| _soil_monitors := <[ key := soil_monitor ]> (_soil_monitors self) |}.

(** Line 111 subscripts the dict, which raises [KeyError] for a missing
    key; lines 112-113 test the value found. *)
Definition get_soil_monitor (self : t) (key : string) : M loc :=
  match _soil_monitors self !! key with
  | None => raise (KeyError key)
  | Some soil_monitor =>
      if negb (truthy soil_monitor) then raise (ValueError key)
      else call soil_monitor
  end.
End SoilMonitorFactory.

(** Lines 295-297: the module's factory and its two registrations. *)
Definition _soil_monitor_factory : SoilMonitorFactory.t :=
  SoilMonitorFactory.register_soil_monitor
    (SoilMonitorFactory.register_soil_monitor
       SoilMonitorFactory.__init__ "adafruitstemma" class_AdafruitStemmaSoilMonitor)
    "mocked" class_MockedSoilMonitor.

Module SoilMonitor.
Record t : Type := { _soil_monitor_name : string; _soil_monitor : loc }.

(** [not name] for the result of [os.getenv]: [None] and the empty string
    are false. *)
Definition falsy (name : option string) : bool :=
  match name with
  | None => true
  | Some s => bool_decide (s = "")
  end.

Definition __init__ : M t :=
  name ← os.getenv "soil_monitor";
  let name := if falsy name then "mocked" else default "" name in
  backend ← SoilMonitorFactory.get_soil_monitor _soil_monitor_factory name;
  mret {| _soil_monitor_name := name; _soil_monitor := backend |}.

Definition get_soil_saturation (self : t) : M value :=
  SoilMonitorInterface.get_soil_saturation (_soil_monitor self).

Definition get_air_temp (self : t) : M value :=
  SoilMonitorInterface.get_air_temp (_soil_monitor self).

Definition get_name (self : t) : M string :=
  SoilMonitorInterface.get_name (_soil_monitor self).
End SoilMonitor.

(** ** services/soil.py *)

(** Lines 1-3, the module body, run when the module is first imported as a
    module of the package [package]: [["services"]] when [app.py] imports
    [services.soil], [["src"; "services"]] when [src.services.soil] is
    imported from the root of the repository.  Line 1 resolves
    [..hardware.soil_monitor] and runs the body of that module (the
    guarded imports; the classes and the factory with its registrations
    are the definitions above); line 3 makes the module global
    [soil_monitor], which is the value here. *)
Definition services_soil (package : list string) : M SoilMonitor.t :=
  resolve_name ["hardware"; "soil_monitor"] package 2;;
  import_guard;;
  SoilMonitor.__init__.

Module SoilService.
(** [soil_monitor] is the module global of line 3. *)
Definition get_soil_status (soil_monitor : SoilMonitor.t) : M (gmap string value) :=
  saturation ← SoilMonitor.get_soil_saturation soil_monitor;
  temp ← SoilMonitor.get_air_temp soil_monitor;
  mret {[ "saturation" := saturation; "temp" := temp ]}.
End SoilService.

(** ** services/health.py *)

Module HealthService.
Record t : Type := { _start_time : spec_float; _soil_monitor : SoilMonitor.t }.

Definition __init__ : M t :=
  start_time ← time.time;
  soil_monitor ← SoilMonitor.__init__;
  mret {| _start_time := start_time; _soil_monitor := soil_monitor |}.

Definition _get_total_app_uptime_seconds (self : t) : M Z :=
  now ← time.time;
  lift (Float.to_int (Float.sub now (_start_time self))).

Definition _get_current_soil_monitor (self : t) : M string :=
  SoilMonitor.get_name (_soil_monitor self).

Definition get_health (self : t) : M (gmap string value) :=
  uptime ← _get_total_app_uptime_seconds self;
  name ← _get_current_soil_monitor self;
  mret {[ "uptime" := VInt uptime; "soilMonitor" := VStr name ]}.
End HealthService.

(** ** app.py *)

Module app.
(** The objects the process holds once every module body has run:
    [services.soil.soil_monitor] and [app.health_service]
    ([app.soil_service] has no attributes). *)
Record globals : Type := {
  soil_monitor : SoilMonitor.t;
  health_service : HealthService.t
}.

(** The module body.  Line 1 imports [flask]; line 2 imports
    [services.soil], a module of the top-level package [services], and runs
    its body; line 3 imports [services.health], whose own imports ([time],
    [os], [.soil]) are loaded by then; line 5 makes the Flask application,
    which holds no state of the program; line 7 makes a [SoilService],
    which has no attributes, and line 8 the [HealthService]. *)
Definition startup : M globals :=
  import "flask";;
  soil_monitor ← services_soil ["services"];
  health_service ← HealthService.__init__;
  mret {| soil_monitor := soil_monitor; health_service := health_service |}.

Definition root (g : globals) : M (gmap string value) :=
  SoilService.get_soil_status (soil_monitor g).

Definition health (g : globals) : M (gmap string value) :=
  HealthService.get_health (health_service g).

Inductive request : Type := GET_root | GET_health.

Definition handle (g : globals) (r : request) : M (gmap string value) :=
  match r with
  | GET_root => root g
  | GET_health => health g
  end.

(** A sequence of requests: they are answered in turn by the two
    handlers; a handler that raises fails its own request only. *)
Fixpoint serve (g : globals) (rs : list request) : M (list (result (gmap string value))) :=
  match rs with
  | [] => mret []
  | r :: rs' =>
      d ← attempt (handle g r);
      ds ← serve g rs';
      mret (d :: ds)
  end.
End app.

(** ** Predicates and functions used in the statements *)

(** Both driver modules are in [sys.modules]: the test of lines 197-202. *)
Definition driver_modules_loaded (st : state) : bool :=
  bool_decide ("board" ∈ sys_modules st) && bool_decide ("adafruit_seesaw.seesaw" ∈ sys_modules st).

Definition not_set_up : string :=
  "Adafruit stemma device not set up, returning -1 for soil saturation".

(** The state after a method of a back end that is not ready: the call is
    recorded and the note is printed. *)
Definition noted (self : loc) (m : method) (st : state) : state :=
  set_stdout (λ out, out ++ [not_set_up]) (set_calls (λ c, c ++ [(self, m)]) st).

(** A call of one of the three methods on an instance, as the wrapper
    makes it, with its outcome dropped. *)
Definition method_call (self : loc) (m : method) : M unit :=
  match m with
  | m_get_soil_saturation => SoilMonitorInterface.get_soil_saturation self;; mret tt
  | m_get_air_temp => SoilMonitorInterface.get_air_temp self;; mret tt
  | m_get_name => SoilMonitorInterface.get_name self;; mret tt
  end.

(** Any sequence of such calls on an instance; a call that raises does
    not end the sequence. *)
Fixpoint method_calls (self : loc) (ms : list method) : M unit :=
  match ms with
  | [] => mret tt
  | m :: ms' => attempt (method_call self m);; method_calls self ms'
  end.

(** A computation that leaves every back-end instance in place and as it
    is. *)
Definition keeps_heap {A : Type} (m : M A) : Prop :=
  ∀ pf st, heap (snd (m pf st)) = heap st.

Definition is_mocked (o : backend_obj) : bool :=
  match o with
  | Mocked_obj => true
  | AdafruitStemma_obj _ _ => false
  end.

(** What [get_name] returns for an instance. *)
Definition backend_name (o : backend_obj) : string :=
  match o with
  | Mocked_obj => "Mocked Soil Monitor"
  | AdafruitStemma_obj _ _ => "Adafruit Stemma"
  end.

(** The key [SoilMonitor.__init__] hands to the factory. *)
Definition selected_key (pf : platform) : string :=
  let name := environ pf !! "soil_monitor" in
  if SoilMonitor.falsy name then "mocked" else default "" name.

(** The back-end instance a health service reads from. *)
Definition health_backend_of (hs : HealthService.t) : loc :=
  SoilMonitor._soil_monitor (HealthService._soil_monitor hs).

Definition wrapper (key : string) (backend : loc) : SoilMonitor.t :=
  {| SoilMonitor._soil_monitor_name := key; SoilMonitor._soil_monitor := backend |}.

(** The whole seconds between two readings of the clock: the exact
    difference, rounded as the subtraction rounds it, then truncated. *)
Definition elapsed (t t0 : spec_float) : Z :=
  (round_grid 53 (Float.grid t - Float.grid t0) / 2 ^ 1074)%Z.

(** [50.0] *)
Definition fifty : spec_float := S754_finite false 7036874417766400 (-47).

(** ** Sample platforms and states *)

(** A development machine: no variable set, [board] refuses to load, no
    sensor attached. *)
Definition workstation : platform :=
  {| environ := ∅;
     import_outcome := λ name,
       if bool_decide (name = "board") then Some NotImplementedError else None;
     drv_I2C := Raise (OSError "no I2C bus");
     drv_Seesaw := λ b a, Raise (OSError "no device");
     drv_moisture_read := λ _, Raise (OSError "no device");
     drv_get_temp := λ _, Raise (OSError "no device");
     py_round := λ x _, x;
     entropy := λ n, Z.of_nat n;
     clock := λ n, Float.of_int (1700000000 + Z.of_nat n) |}.

(** A machine with another environment, another random source or another
    clock. *)
Definition with_environ (env : gmap string string) (pf : platform) : platform :=
  {| environ := env; import_outcome := import_outcome pf;
     drv_I2C := drv_I2C pf; drv_Seesaw := drv_Seesaw pf;
     drv_moisture_read := drv_moisture_read pf; drv_get_temp := drv_get_temp pf;
     py_round := py_round pf; entropy := entropy pf; clock := clock pf |}.

Definition with_entropy (e : nat → Z) (pf : platform) : platform :=
  {| environ := environ pf; import_outcome := import_outcome pf;
     drv_I2C := drv_I2C pf; drv_Seesaw := drv_Seesaw pf;
     drv_moisture_read := drv_moisture_read pf; drv_get_temp := drv_get_temp pf;
     py_round := py_round pf; entropy := e; clock := clock pf |}.

Definition with_clock (c : nat → spec_float) (pf : platform) : platform :=
  {| environ := environ pf; import_outcome := import_outcome pf;
     drv_I2C := drv_I2C pf; drv_Seesaw := drv_Seesaw pf;
     drv_moisture_read := drv_moisture_read pf; drv_get_temp := drv_get_temp pf;
     py_round := py_round pf; entropy := entropy pf; clock := c |}.

(** A Raspberry Pi whose driver modules load but whose I2C bus cannot be
    opened. *)
Definition pi_without_bus : platform :=
  {| environ := {[ "soil_monitor" := "adafruitstemma" ]};
     import_outcome := λ _, None;
     drv_I2C := Raise (OSError "No Hardware I2C on (scl,sda)");
     drv_Seesaw := λ b a, Raise (OSError "no device");
     drv_moisture_read := λ _, Raise (OSError "no device");
     drv_get_temp := λ _, Raise (OSError "no device");
     py_round := λ x _, x;
     entropy := λ n, Z.of_nat n;
     clock := λ n, Float.of_int (1700000000 + Z.of_nat n) |}.

(** A Raspberry Pi whose sensor was found at construction and no longer
    answers. *)
Definition pi_sensor_lost : platform :=
  {| environ := {[ "soil_monitor" := "adafruitstemma" ]};
     import_outcome := λ _, None;
     drv_I2C := Ok I2C_bus;
     drv_Seesaw := λ b a, Ok {| ss_bus := b; ss_addr := a |};
     drv_moisture_read := λ _, Raise (RuntimeError "Could not get a valid moisture reading.");
     drv_get_temp := λ _, Raise (OSError "[Errno 121] Remote I/O error");
     py_round := λ x _, x;
     entropy := λ n, Z.of_nat n;
     clock := λ n, Float.of_int (1700000000 + Z.of_nat n) |}.

(** The development machine with a random source that always draws 101. *)
Definition other_dice : platform := with_entropy (λ _, 101%Z) workstation.

(** A machine whose clock reads 1700000000.0, then 1700000001.5, then
    1700000003.25 from the third reading on. *)
Definition ticking : platform :=
  with_clock (λ n, match n with
                   | 0 => Float.of_int 1700000000
                   | 1 => Float.ldexp 3400000003 (-1)
                   | _ => Float.ldexp 6800000013 (-2)
                   end) workstation.

(** A process that has the two driver modules loaded. *)
Definition drivers_imported : state :=
  set_sys_modules (λ _, {[ "board"; "adafruit_seesaw.seesaw" ]}) initial.

(** Heaps with one instance: the hardware back end not ready, the hardware
    back end ready, the simulated back end. *)
Definition degraded_heap : state :=
  set_heap (λ _, [AdafruitStemma_obj false None]) initial.

Definition ready_heap : state :=
  set_heap (λ _, [AdafruitStemma_obj true (Some {| ss_bus := I2C_bus; ss_addr := 0x36 |})])
    drivers_imported.

Definition mocked_heap : state := set_heap (λ _, [Mocked_obj]) initial.

(** A health service over the simulated back end at address 0, started at
    1700000000.0: what [HealthService()] makes on [workstation] and on
    [ticking] from the initial state. *)
Definition mocked_service : HealthService.t :=
  {| HealthService._start_time := Float.of_int 1700000000;
     HealthService._soil_monitor := wrapper "mocked" 0 |}.

Definition ticking_service : HealthService.t := mocked_service.

(** The health service constructed on [workstation] once the module global
    of [services/soil.py] holds the instance at address 0: its own
    instance is at address 1. *)
Definition mocked_service_1 : HealthService.t :=
  {| HealthService._start_time := Float.of_int 1700000000;
     HealthService._soil_monitor := wrapper "mocked" 1 |}.

(** The state the construction of the health service leaves on [ticking]. *)
Definition ticking_started : state := snd (HealthService.__init__ ticking initial).

(** ** Definitions for the further properties *)

(** The class an instance was made from. *)
Definition class_of (o : backend_obj) : registered :=
  match o with
  | Mocked_obj => class_MockedSoilMonitor
  | AdafruitStemma_obj _ _ => class_AdafruitStemmaSoilMonitor
  end.

(** A factory with one registration, of the simulated back end. *)
Definition one_mock : SoilMonitorFactory.t :=
  SoilMonitorFactory.register_soil_monitor SoilMonitorFactory.__init__ "sim" class_MockedSoilMonitor.

(** A Raspberry Pi with the sensor attached: the raw moisture reading is
    1015, the temperature 21.375, rounded by [round] to 21.4. *)
Definition pi_ready : platform :=
  {| environ := {[ "soil_monitor" := "adafruitstemma" ]};
     import_outcome := λ _, None;
     drv_I2C := Ok I2C_bus;
     drv_Seesaw := λ b a, Ok {| ss_bus := b; ss_addr := a |};
     drv_moisture_read := λ _, Ok 1015%Z;
     drv_get_temp := λ _, Ok (Float.ldexp 171 (-3));
     py_round := λ _ _, Float.ldexp 6023622370773402 (-48);
     entropy := λ n, Z.of_nat n;
     clock := λ n, Float.of_int (1700000000 + Z.of_nat n) |}.

(** A machine on which the package of [board] is not installed. *)
Definition no_board_package : platform :=
  {| environ := ∅;
     import_outcome := λ name,
       if bool_decide (name = "board") then Some (ModuleNotFoundError "board") else None;
     drv_I2C := Raise (OSError "no I2C bus");
     drv_Seesaw := λ b a, Raise (OSError "no device");
     drv_moisture_read := λ _, Raise (OSError "no device");
     drv_get_temp := λ _, Raise (OSError "no device");
     py_round := λ x _, x;
     entropy := λ n, Z.of_nat n;
     clock := λ n, Float.of_int (1700000000 + Z.of_nat n) |}.

(** The development machine asked for the hardware back end. *)
Definition unsupported_board : platform :=
  with_environ {[ "soil_monitor" := "adafruitstemma" ]} workstation.

(** A computation that leaves a component [p] of the state as it is. *)
Definition preserves {A B : Type} (p : state → B) (m : M A) : Prop :=
  ∀ pf st, p (snd (m pf st)) = p st.



(** * Properties *)

(** ** Rounding to nearest even, on integers *)

Section GridArithmetic.
Local Open Scope Z_scope.

Lemma pow2_pos (n : Z) : 0 ≤ n → 0 < 2 ^ n.
Proof. intros. apply Z.pow_pos_nonneg; lia. Qed.

Lemma pow2_add (a b : Z) : 0 ≤ a → 0 ≤ b → 2 ^ (a + b) = 2 ^ a * 2 ^ b.
Proof. intros. apply Z.pow_add_r; lia. Qed.

Lemma pow2_le (a b : Z) : 0 ≤ a ≤ b → 2 ^ a ≤ 2 ^ b.
Proof. intros. apply Z.pow_le_mono_r; lia. Qed.

Lemma pow2_lt (a b : Z) : 0 ≤ a < b → 2 ^ a < 2 ^ b.
Proof. intros. apply Z.pow_lt_mono_r; lia. Qed.

Lemma pow2_succ (a : Z) : 0 ≤ a → 2 ^ (a + 1) = 2 * 2 ^ a.
Proof. intros. rewrite Z.pow_add_r by lia. lia. Qed.

(** digits *)
Lemma digits2_size (p : positive) : digits2_pos p = Pos.size p.
Proof. induction p; cbn; congruence. Qed.

Lemma digits2_log2 (p : positive) : Z.pos (digits2_pos p) = Z.log2 (Z.pos p) + 1.
Proof.
  rewrite digits2_size. destruct p; cbn [Z.log2 Pos.size]; lia.
Qed.

Lemma digits2_bounds (p : positive) :
  2 ^ (Z.pos (digits2_pos p) - 1) ≤ Z.pos p < 2 ^ Z.pos (digits2_pos p).
Proof.
  rewrite digits2_log2. replace (Z.log2 (Z.pos p) + 1 - 1) with (Z.log2 (Z.pos p)) by lia.
  apply Z.log2_spec. lia.
Qed.

Lemma log2_eq (X d : Z) : 2 ^ (d - 1) ≤ X < 2 ^ d → 0 < d → Z.log2 X + 1 = d.
Proof.
  intros H Hd. rewrite (Z.log2_unique X (d - 1)); [lia | lia |].
  now replace (Z.succ (d - 1)) with d by lia.
Qed.

(** rne *)
Lemma rne_bounds X n : 0 ≤ n → X / 2 ^ n ≤ rne X n ≤ X / 2 ^ n + 1.
Proof.
  intros Hn. unfold rne. repeat case_match; lia.
Qed.

Lemma rne_exact X n : 0 ≤ n → X mod 2 ^ n = 0 → rne X n = X / 2 ^ n.
Proof.
  intros Hn H. unfold rne. rewrite H. pose proof (pow2_pos n Hn).
  destruct (2 * 0 <? 2 ^ n) eqn:E; [reflexivity|]. apply Z.ltb_ge in E. lia.
Qed.

Lemma rne_mono X Y n : 0 ≤ n → X ≤ Y → rne X n ≤ rne Y n.
Proof.
  intros Hn HXY. pose proof (pow2_pos n Hn) as HP.
  pose proof (Z.div_le_mono X Y (2 ^ n) HP HXY) as Hq.
  pose proof (rne_bounds X n Hn). pose proof (rne_bounds Y n Hn).
  destruct (Z.eq_dec (X / 2 ^ n) (Y / 2 ^ n)) as [E|E]; [|lia].
  pose proof (Z.div_mod X (2 ^ n) ltac:(lia)) as HX.
  pose proof (Z.div_mod Y (2 ^ n) ltac:(lia)) as HY.
  unfold rne. rewrite <- E in *.
  repeat case_match; rewrite ?Z.ltb_lt, ?Z.ltb_ge in *; try lia; congruence.
Qed.

Lemma shr_1_nonneg m r s :
  0 ≤ m →
  shr_1 {| shr_m := m; shr_r := r; shr_s := s |}
  = {| shr_m := m / 2; shr_r := Z.odd m; shr_s := r || s |}.
Proof.
  intros Hm. rewrite <- Z.div2_div.
  destruct m as [|[p|p|]|p]; try reflexivity; lia.
Qed.

Lemma shr_of_0 X : shr_of X 0 = {| shr_m := X; shr_r := false; shr_s := false |}.
Proof.
  unfold shr_of. cbn [Z.pow]. change (2 ^ 0) with 1.
  rewrite Z.div_1_r, Z.mod_1_r. reflexivity.
Qed.

Lemma shr_1_step X k : 0 ≤ X → 0 ≤ k → shr_1 (shr_of X k) = shr_of X (k + 1).
Proof.
  intros HX Hk. pose proof (pow2_pos k Hk) as HP.
  unfold shr_of. rewrite shr_1_nonneg by (apply Z.div_pos; lia).
  rewrite pow2_succ by lia.
  replace (2 * 2 ^ k) with (2 ^ k * 2) by lia.
  rewrite <- Z.div_div by lia.
  rewrite Z.rem_mul_r by lia.
  set (m := X / 2 ^ k). set (r := X mod 2 ^ k).
  pose proof (Z.mod_pos_bound X (2 ^ k) HP) as Hr. fold r in Hr.
  rewrite Zodd_mod.
  pose proof (Z.mod_pos_bound m 2 ltac:(lia)) as Hb.
  remember (m mod 2) as b eqn:Eb. clear Eb.
  assert (Hb01 : b = 0 ∨ b = 1) by lia.
  f_equal.
  - destruct Hb01 as [-> | ->]; cbn [Z.eqb]; symmetry;
      [apply Z.leb_gt | apply Z.leb_le]; lia.
  - destruct Hb01 as [-> | ->];
      destruct (Z.leb_spec (2 ^ k) (2 * r)), (Z.eqb_spec r 0), (Z.eqb_spec (2 * r) (2 ^ k));
      cbn [orb andb negb];
      match goal with
      | |- _ = negb (?a =? ?b) && negb (?c =? ?d) =>
          destruct (Z.eqb_spec a b), (Z.eqb_spec c d)
      end; cbn [andb negb]; try reflexivity; lia.
Qed.

Lemma iter_pos_shr X p : ∀ k,
  0 ≤ X → 0 ≤ k → SpecFloat.iter_pos shr_1 p (shr_of X k) = shr_of X (k + Z.pos p).
Proof.
  induction p as [p IH|p IH|]; intros k HX Hk; cbn [SpecFloat.iter_pos].
  - rewrite shr_1_step, !IH by lia. f_equal. lia.
  - rewrite !IH by lia. f_equal. lia.
  - now apply shr_1_step.
Qed.

(** [shr] on an exact record *)
Lemma shr_exact X e n :
  0 ≤ X →
  shr {| shr_m := X; shr_r := false; shr_s := false |} e n
  = if 0 <? n then (shr_of X n, e + n)
    else ({| shr_m := X; shr_r := false; shr_s := false |}, e).
Proof.
  intros HX. destruct n as [|p|p]; cbn [shr Z.ltb Z.compare]; try reflexivity.
  rewrite <- shr_of_0, iter_pos_shr by lia. reflexivity.
Qed.

(** rounding to nearest even of a shifted record is [rne] *)
Lemma round_shr_of X k :
  0 ≤ X → 0 ≤ k →
  round_nearest_even (shr_m (shr_of X k)) (loc_of_shr_record (shr_of X k)) = rne X k.
Proof.
  intros HX Hk. pose proof (pow2_pos k Hk) as HP.
  pose proof (Z.mod_pos_bound X (2 ^ k) HP) as Hr.
  unfold shr_of, rne. cbn [shr_m loc_of_shr_record].
  set (r := X mod 2 ^ k) in *.
  destruct (Z.leb_spec (2 ^ k) (2 * r)), (Z.eqb_spec r 0), (Z.eqb_spec (2 * r) (2 ^ k)),
    (Z.ltb_spec (2 * r) (2 ^ k)), (Z.ltb_spec (2 ^ k) (2 * r));
    cbn; try reflexivity; lia.
Qed.

Lemma rne_scale m n c : 0 ≤ n → 0 ≤ c → rne (m * 2 ^ c) (n + c) = rne m n.
Proof.
  intros Hn Hc. pose proof (pow2_pos n Hn) as HPn. pose proof (pow2_pos c Hc) as HPc.
  unfold rne. rewrite pow2_add by lia.
  rewrite Z.div_mul_cancel_r, Z.mul_mod_distr_r by lia.
  set (r := m mod 2 ^ n).
  assert (E1 : (2 * (r * 2 ^ c) <? 2 ^ n * 2 ^ c) = (2 * r <? 2 ^ n)).
  { destruct (Z.ltb_spec (2 * r) (2 ^ n)); [apply Z.ltb_lt | apply Z.ltb_ge]; nia. }
  assert (E2 : (2 ^ n * 2 ^ c <? 2 * (r * 2 ^ c)) = (2 ^ n <? 2 * r)).
  { destruct (Z.ltb_spec (2 ^ n) (2 * r)); [apply Z.ltb_lt | apply Z.ltb_ge]; nia. }
  now rewrite E1, E2.
Qed.

Lemma pos_iter_xO (m d : positive) : Z.pos (Pos.iter xO m d) = Z.pos m * 2 ^ Z.pos d.
Proof.
  induction d as [|d IH] using Pos.peano_ind.
  - cbn. lia.
  - rewrite Pos.iter_succ, Pos2Z.inj_xO, IH, Pos2Z.inj_succ.
    unfold Z.succ. rewrite pow2_succ by lia. ring.
Qed.

End GridArithmetic.

Section RoundGrid.
Local Open Scope Z_scope.
Variable prec : Z.
Hypothesis Hprec : 0 < prec.

(** the quotient kept by a rounding that drops [n > 0] bits of [X] has
    exactly [prec] bits *)
Lemma kept_bits X n :
  0 < X → n = Z.log2 X + 1 - prec → 0 < n →
  2 ^ (prec - 1) ≤ X / 2 ^ n < 2 ^ prec.
Proof.
  intros HX Hn Hpos. pose proof (Z.log2_spec X HX) as [Hlo Hhi].
  pose proof (pow2_pos n ltac:(lia)) as HP.
  replace (Z.succ (Z.log2 X)) with (prec + n) in Hhi by lia.
  replace (Z.log2 X) with (prec - 1 + n) in Hlo by lia.
  rewrite pow2_add in Hhi, Hlo by lia. split.
  - apply Z.div_le_lower_bound; lia.
  - apply Z.div_lt_upper_bound; lia.
Qed.

Lemma round_grid_bounds X :
  0 < X → 2 ^ Z.log2 X ≤ round_grid prec X ≤ 2 ^ (Z.log2 X + 1).
Proof.
  intros HX. pose proof (Z.log2_spec X HX) as [Hlo Hhi].
  replace (Z.succ (Z.log2 X)) with (Z.log2 X + 1) in Hhi by lia.
  unfold round_grid. destruct (Z.leb_spec (Z.log2 X + 1 - prec) 0) as [Hn|Hn]; [lia|].
  set (n := Z.log2 X + 1 - prec) in *.
  pose proof (kept_bits X n HX eq_refl Hn) as [Hq1 Hq2].
  pose proof (rne_bounds X n ltac:(lia)) as [Hr1 Hr2].
  pose proof (pow2_pos n ltac:(lia)) as HP.
  replace (Z.log2 X) with (prec - 1 + n) at 1 by lia.
  replace (Z.log2 X + 1) with (prec + n) by lia.
  rewrite !pow2_add by lia. split.
  - apply Z.mul_le_mono_nonneg_r; lia.
  - apply Z.mul_le_mono_nonneg_r; lia.
Qed.

Lemma round_grid_mono X Y : 0 < X → X ≤ Y → round_grid prec X ≤ round_grid prec Y.
Proof.
  intros HX HXY.
  pose proof (Z.log2_le_mono X Y HXY) as Hlog.
  pose proof (Z.log2_nonneg X) as HlX.
  destruct (Z.eq_dec (Z.log2 X) (Z.log2 Y)) as [E|E].
  - unfold round_grid. rewrite <- E.
    destruct (Z.leb_spec (Z.log2 X + 1 - prec) 0) as [Hn|Hn]; [lia|].
    apply Z.mul_le_mono_nonneg_r; [apply Z.lt_le_incl, pow2_pos; lia|].
    apply rne_mono; lia.
  - pose proof (round_grid_bounds X HX) as [_ H1].
    pose proof (round_grid_bounds Y ltac:(lia)) as [H2 _].
    pose proof (pow2_le (Z.log2 X + 1) (Z.log2 Y) ltac:(lia)). lia.
Qed.

(** a value with at most [prec] significant bits is not changed *)
Lemma round_grid_exact m k :
  0 < m < 2 ^ prec → 0 ≤ k → round_grid prec (m * 2 ^ k) = m * 2 ^ k.
Proof.
  intros Hm Hk. unfold round_grid.
  destruct (Z.leb_spec (Z.log2 (m * 2 ^ k) + 1 - prec) 0) as [Hn|Hn]; [reflexivity|].
  set (n := Z.log2 (m * 2 ^ k) + 1 - prec) in *.
  assert (Hlog : Z.log2 (m * 2 ^ k) = Z.log2 m + k).
  { rewrite <- Z.shiftl_mul_pow2 by lia. apply Z.log2_shiftl; lia. }
  assert (Hlm : Z.log2 m < prec).
  { apply Z.log2_lt_pow2; lia. }
  assert (Hnk : n ≤ k) by lia.
  replace k with ((k - n) + n) by lia. rewrite pow2_add by lia.
  rewrite Z.mul_assoc.
  pose proof (pow2_pos n ltac:(lia)).
  rewrite rne_exact; [| lia | apply Z.mod_mul; lia].
  rewrite Z.div_mul by lia. reflexivity.
Qed.

Lemma round_grid_0 : round_grid prec 0 = 0.
Proof.
  unfold round_grid. change (Z.log2 0) with 0.
  destruct (Z.leb_spec (0 + 1 - prec) 0); [reflexivity|lia].
Qed.

Lemma round_grid_mono0 X Y :
  0 ≤ X → X ≤ Y → round_grid prec X ≤ round_grid prec Y.
Proof.
  intros HX HXY. destruct (Z.eq_dec X 0) as [->|HX0].
  - rewrite round_grid_0. destruct (Z.eq_dec Y 0) as [->|HY0].
    + rewrite round_grid_0; lia.
    + pose proof (round_grid_bounds Y ltac:(lia)) as [H _].
      pose proof (pow2_pos (Z.log2 Y) (Z.log2_nonneg Y)). lia.
  - apply round_grid_mono; lia.
Qed.

End RoundGrid.

(** ** The rounding of [SpecFloat] computes [round_grid] *)

Section Round.
Local Open Scope Z_scope.
Variables prec emax : Z.
Hypothesis Hprec : 0 < prec.
Hypothesis Hemax : prec < emax.
Local Abbreviation emin := (SpecFloat.emin prec emax).
Local Abbreviation fexp := (SpecFloat.fexp prec emax).

Lemma shr_fexp_exact (m : positive) e :
  shr_fexp prec emax (Z.pos m) e loc_Exact
  = if 0 <? fexp (Z.pos (digits2_pos m) + e) - e
    then (shr_of (Z.pos m) (fexp (Z.pos (digits2_pos m) + e) - e),
          e + (fexp (Z.pos (digits2_pos m) + e) - e))
    else ({| shr_m := Z.pos m; shr_r := false; shr_s := false |}, e).
Proof.
  unfold shr_fexp. cbn [shr_record_of_loc Zdigits2]. apply shr_exact. lia.
Qed.

(** The last step of [binary_round_aux]: the rounded mantissa [m2] has at
    most [prec] bits, or is [2 ^ prec] and is renormalised. *)
Lemma round_finish sx (m2 : positive) e1 :
  Z.pos m2 ≤ 2 ^ prec →
  2 ^ (prec - 1) ≤ Z.pos m2 ∨ e1 = emin →
  emin ≤ e1 →
  Z.pos m2 * 2 ^ (e1 - emin) < 2 ^ (emax - emin) →
  ∃ m e,
    (let '(mrs, e) := shr_fexp prec emax (Z.pos m2) e1 loc_Exact in
     match shr_m mrs with
     | Z0 => S754_zero sx
     | Z.pos m => if e <=? emax - prec then S754_finite sx m e else S754_infinity sx
     | Z.neg _ => S754_nan
     end) = S754_finite sx m e
    ∧ bounded prec emax m e = true
    ∧ emin ≤ e
    ∧ Z.pos m * 2 ^ (e - emin) = Z.pos m2 * 2 ^ (e1 - emin).
Proof.
  intros Hle Hcan He Hov.
  pose proof (digits2_bounds m2) as Hd.
  set (d := Z.pos (digits2_pos m2)) in *.
  assert (Hemin : emin = 3 - emax - prec) by reflexivity.
  rewrite shr_fexp_exact. fold d.
  destruct (Z.eq_dec (Z.pos m2) (2 ^ prec)) as [Etop|Etop].
  - (* carry into bit [prec]: one more shift *)
    assert (Ed : d = prec + 1).
    { unfold d. rewrite digits2_log2, Etop, Z.log2_pow2 by lia. reflexivity. }
    assert (Ef : fexp (d + e1) - e1 = 1) by (unfold SpecFloat.fexp; lia).
    rewrite Ef. cbn [Z.ltb Z.compare].
    unfold shr_of. cbn [shr_m]. rewrite Etop.
    change (2 ^ 1) with 2.
    replace (2 ^ prec / 2) with (2 ^ (prec - 1)).
    2:{ replace prec with (prec - 1 + 1) at 2 by lia. rewrite pow2_succ by lia.
        rewrite Z.mul_comm, Z.div_mul by lia. reflexivity. }
    pose proof (pow2_pos (prec - 1) ltac:(lia)) as Hpp.
    destruct (2 ^ (prec - 1)) as [|q|q] eqn:Eq; try lia.
    assert (Hexp : prec + (e1 - emin) < emax - emin).
    { apply (Z.pow_lt_mono_r_iff 2); [lia | lia |].
      rewrite pow2_add by lia. rewrite <- Etop. exact Hov. }
    assert (Hq : Z.pos (digits2_pos q) = prec).
    { rewrite digits2_log2, <- Eq, Z.log2_pow2 by lia. lia. }
    exists q, (e1 + 1).
    destruct (Z.leb_spec (e1 + 1) (emax - prec)) as [Hok|Hbad]; [|lia].
    split; [reflexivity|]. split; [|split; [lia|]].
    + unfold bounded, canonical_mantissa. rewrite Hq.
      apply andb_true_intro. split; [apply Z.eqb_eq; unfold SpecFloat.fexp; lia | apply Z.leb_le; lia].
    + rewrite <- Eq.
      replace (e1 + 1 - emin) with (e1 - emin + 1) by lia.
      rewrite pow2_succ by lia.
      replace (2 ^ prec) with (2 * 2 ^ (prec - 1)); [ring|].
      rewrite <- pow2_succ by lia. f_equal. lia.
  - (* no carry: at most [prec] bits, nothing more to shift *)
    assert (Hlt : Z.pos m2 < 2 ^ prec) by lia.
    assert (Hdp : d ≤ prec).
    { destruct Hd as [Hd1 _].
      destruct (Z.le_gt_cases d prec) as [?|Hgt]; [assumption|].
      pose proof (pow2_le prec (d - 1) ltac:(lia)). lia. }
    assert (Ef : fexp (d + e1) - e1 ≤ 0) by (unfold SpecFloat.fexp; lia).
    destruct (Z.ltb_spec 0 (fexp (d + e1) - e1)) as [?|_]; [lia|].
    cbn [shr_m].
    assert (Hcanon : fexp (d + e1) = e1).
    { destruct Hcan as [Hbig| ->].
      - assert (d = prec).
        { destruct Hd as [_ Hd2].
          destruct (Z.le_gt_cases prec d) as [?|Hgt]; [lia|].
          pose proof (pow2_le d (prec - 1) ltac:(lia)). lia. }
        unfold SpecFloat.fexp; lia.
      - unfold SpecFloat.fexp; lia. }
    assert (Hexp : e1 ≤ emax - prec).
    { destruct Hcan as [Hbig| ->]; [|lia].
      assert (prec - 1 + (e1 - emin) < emax - emin); [|lia].
      apply (Z.pow_lt_mono_r_iff 2); [lia | lia |].
      rewrite pow2_add by lia.
      pose proof (pow2_pos (e1 - emin) ltac:(lia)). nia. }
    exists m2, e1.
    destruct (Z.leb_spec e1 (emax - prec)) as [Hok|Hbad]; [|lia].
    split; [reflexivity|]. split; [|split; [lia|reflexivity]].
    unfold bounded, canonical_mantissa. fold d. rewrite Hcanon.
    apply andb_true_intro. split; [apply Z.eqb_refl | apply Z.leb_le; lia].
Qed.

(** [binary_round_aux] on an exact mantissa that is not below the grid
    and not shifted too far left: the result is the valid float whose
    value is the rounding of the exact value. *)
Lemma binary_round_aux_grid sx (mx : positive) ex :
  emin ≤ ex →
  ex ≤ fexp (Z.pos (digits2_pos mx) + ex) →
  round_grid prec (Z.pos mx * 2 ^ (ex - emin)) < 2 ^ (emax - emin) →
  ∃ m e,
    binary_round_aux prec emax sx (Z.pos mx) ex loc_Exact = S754_finite sx m e
    ∧ bounded prec emax m e = true
    ∧ emin ≤ e
    ∧ Z.pos m * 2 ^ (e - emin) = round_grid prec (Z.pos mx * 2 ^ (ex - emin)).
Proof.
  intros He Hsh Hov.
  pose proof (digits2_bounds mx) as Hd.
  pose proof (digits2_log2 mx) as Hlog.
  set (d := Z.pos (digits2_pos mx)) in *.
  assert (Hemin : emin = 3 - emax - prec) by reflexivity.
  unfold binary_round_aux. rewrite shr_fexp_exact. fold d.
  destruct (Z.le_gt_cases d prec) as [Hdp|Hdp].
  - (* nothing to drop *)
    assert (Ef : fexp (d + ex) = ex) by (unfold SpecFloat.fexp in *; lia).
    rewrite Ef, Z.sub_diag. cbn [Z.ltb Z.compare shr_m loc_of_shr_record round_nearest_even].
    assert (Hex : round_grid prec (Z.pos mx * 2 ^ (ex - emin)) = Z.pos mx * 2 ^ (ex - emin)).
    { apply round_grid_exact; [lia | | lia].
      split; [lia|]. pose proof (pow2_le d prec ltac:(lia)). lia. }
    rewrite Hex in *.
    apply round_finish; try assumption.
    + pose proof (pow2_le d prec ltac:(lia)). lia.
    + unfold SpecFloat.fexp in Ef.
      destruct (Z.eq_dec ex emin) as [?|Hne]; [now right|left].
      replace prec with d by lia. lia.
  - (* [d - prec] bits are dropped and the rest is rounded *)
    set (n := d - prec).
    assert (Ef : fexp (d + ex) - ex = n) by (unfold SpecFloat.fexp, n; lia).
    rewrite Ef. destruct (Z.ltb_spec 0 n) as [Hn|Hn]; [|unfold n in Hn; lia].
    rewrite round_shr_of by lia.
    pose proof (kept_bits prec Hprec (Z.pos mx) n ltac:(lia) ltac:(unfold n; lia) Hn) as [Hq1 Hq2].
    pose proof (rne_bounds (Z.pos mx) n ltac:(lia)) as [Hr1 Hr2].
    pose proof (pow2_pos (prec - 1) ltac:(lia)) as Hpp.
    assert (Hgrid : round_grid prec (Z.pos mx * 2 ^ (ex - emin))
                    = rne (Z.pos mx) n * 2 ^ (ex + n - emin)).
    { unfold round_grid.
      assert (Hl : Z.log2 (Z.pos mx * 2 ^ (ex - emin)) = Z.log2 (Z.pos mx) + (ex - emin)).
      { rewrite <- Z.shiftl_mul_pow2 by lia. apply Z.log2_shiftl; lia. }
      rewrite Hl.
      replace (Z.log2 (Z.pos mx) + (ex - emin) + 1 - prec) with (n + (ex - emin)) by (unfold n; lia).
      destruct (Z.leb_spec (n + (ex - emin)) 0) as [?|_]; [lia|].
      rewrite rne_scale by lia. f_equal. f_equal. lia. }
    rewrite Hgrid in *.
    destruct (rne (Z.pos mx) n) as [|m2|m2] eqn:Em2; try lia.
    apply round_finish; try assumption; lia.
Qed.

(** [shl_align] keeps the value and brings the exponent down to the
    canonical one when the mantissa is short. *)
Lemma shl_align_fexp (mx : positive) ex :
  emin ≤ ex →
  ∃ mz ez,
    shl_align mx ex (fexp (Z.pos (digits2_pos mx) + ex)) = (mz, ez)
    ∧ emin ≤ ez
    ∧ ez ≤ fexp (Z.pos (digits2_pos mz) + ez)
    ∧ Z.pos mz * 2 ^ (ez - emin) = Z.pos mx * 2 ^ (ex - emin).
Proof.
  intros He. unfold shl_align.
  set (d := Z.pos (digits2_pos mx)).
  assert (Hemin : emin = 3 - emax - prec) by reflexivity.
  destruct (fexp (d + ex) - ex) as [|p|p] eqn:E.
  - exists mx, ex. fold d. repeat split; try lia.
  - exists mx, ex. fold d. repeat split; try lia.
  - exists (Pos.iter xO mx p), (fexp (d + ex)).
    assert (Hf : fexp (d + ex) = ex - Z.pos p) by lia.
    assert (Hfe : emin ≤ fexp (d + ex)) by (unfold SpecFloat.fexp; lia).
    assert (Hdig : Z.pos (digits2_pos (Pos.iter xO mx p)) = d + Z.pos p).
    { rewrite digits2_log2, pos_iter_xO, <- Z.shiftl_mul_pow2 by lia.
      rewrite Z.log2_shiftl by lia. unfold d. rewrite digits2_log2. lia. }
    split; [reflexivity|]. split; [exact Hfe|]. split.
    + rewrite Hdig. replace (d + Z.pos p + fexp (d + ex)) with (d + ex) by lia. lia.
    + rewrite pos_iter_xO, Hf.
      replace (ex - emin) with (Z.pos p + (ex - Z.pos p - emin)) by lia.
      rewrite pow2_add by lia. ring.
Qed.

Lemma binary_round_grid sx (mx : positive) ex :
  emin ≤ ex →
  round_grid prec (Z.pos mx * 2 ^ (ex - emin)) < 2 ^ (emax - emin) →
  ∃ m e,
    binary_round prec emax sx mx ex = S754_finite sx m e
    ∧ bounded prec emax m e = true
    ∧ emin ≤ e
    ∧ Z.pos m * 2 ^ (e - emin) = round_grid prec (Z.pos mx * 2 ^ (ex - emin)).
Proof.
  intros He Hov. unfold binary_round.
  destruct (shl_align_fexp mx ex He) as (mz & ez & -> & Hez & Hsh & Hval).
  rewrite <- Hval in *. now apply binary_round_aux_grid.
Qed.

Lemma bounded_inv m e :
  bounded prec emax m e = true →
  emin ≤ e ≤ emax - prec ∧ Z.pos m < 2 ^ prec ∧ (2 ^ (prec - 1) ≤ Z.pos m ∨ e = emin).
Proof.
  unfold bounded, canonical_mantissa. intros [Hc He]%andb_prop.
  apply Z.eqb_eq in Hc. apply Z.leb_le in He.
  pose proof (digits2_bounds m) as [Hd1 Hd2].
  set (d := Z.pos (digits2_pos m)) in *.
  assert (Hemin : emin = 3 - emax - prec) by reflexivity.
  unfold SpecFloat.fexp in Hc.
  assert (Hdp : d ≤ prec) by lia.
  split; [lia|]. split.
  - pose proof (pow2_le d prec ltac:(lia)). lia.
  - destruct (Z.eq_dec e emin) as [?|Hne]; [now right|left].
    replace prec with d by lia. exact Hd1.
Qed.

Lemma grid_finite_pos (m : positive) e :
  emin ≤ e → 0 < grid prec emax (S754_finite false m e).
Proof.
  intros He. cbn [grid cond_Zopp]. pose proof (pow2_pos (e - emin) ltac:(lia)). lia.
Qed.

Lemma grid_bounded_lt m e :
  bounded prec emax m e = true → Z.pos m * 2 ^ (e - emin) < 2 ^ (emax - emin).
Proof.
  intros (He & Hm & _)%bounded_inv.
  replace (emax - emin) with (prec + (emax - prec - emin)) by lia.
  rewrite pow2_add by lia.
  pose proof (pow2_le (e - emin) (emax - prec - emin) ltac:(lia)).
  pose proof (pow2_pos (e - emin) ltac:(lia)). nia.
Qed.

(** a normal mantissa at a higher exponent is the larger value *)
Lemma binade_lt (m1 m2 e1 e2 : Z) :
  emin ≤ e1 < e2 → 0 < m1 < 2 ^ prec → 2 ^ (prec - 1) ≤ m2 →
  m1 * 2 ^ (e1 - emin) < m2 * 2 ^ (e2 - emin).
Proof.
  intros He Hm1 Hm2.
  pose proof (pow2_pos (e1 - emin) ltac:(lia)) as HP1.
  pose proof (pow2_pos (e2 - e1 - 1) ltac:(lia)) as HQ.
  pose proof (pow2_pos (prec - 1) ltac:(lia)) as HPp.
  assert (Hpp : 2 ^ prec = 2 * 2 ^ (prec - 1)).
  { rewrite <- pow2_succ by lia. f_equal. lia. }
  replace (e2 - emin) with ((e2 - e1 - 1) + 1 + (e1 - emin)) by lia.
  rewrite pow2_add, pow2_succ by lia.
  replace (m2 * (2 * 2 ^ (e2 - e1 - 1) * 2 ^ (e1 - emin)))
    with (2 * m2 * 2 ^ (e2 - e1 - 1) * 2 ^ (e1 - emin)) by ring.
  apply Z.mul_lt_mono_pos_r; [lia|].
  apply Z.lt_le_trans with (2 * m2); [lia|].
  rewrite <- (Z.mul_1_r (2 * m2)) at 1.
  apply Z.mul_le_mono_nonneg_l; lia.
Qed.

(** On valid floats that are not negative, [SFcompare] is the order of
    the values. *)
Lemma compare_finite_grid m1 e1 m2 e2 :
  bounded prec emax m1 e1 = true → bounded prec emax m2 e2 = true →
  SFcompare (S754_finite false m1 e1) (S754_finite false m2 e2)
  = Some (Z.pos m1 * 2 ^ (e1 - emin) ?= Z.pos m2 * 2 ^ (e2 - emin)).
Proof.
  intros (He1 & Hm1 & Hc1)%bounded_inv (He2 & Hm2 & Hc2)%bounded_inv.
  cbn [SFcompare]. f_equal.
  pose proof (pow2_pos (e1 - emin) ltac:(lia)) as HP1.
  pose proof (pow2_pos (e2 - emin) ltac:(lia)) as HP2.
  pose proof (pow2_pos (prec - 1) ltac:(lia)) as HPp.
  assert (Hpp : 2 ^ prec = 2 * 2 ^ (prec - 1)).
  { rewrite <- pow2_succ by lia. f_equal. lia. }
  destruct (Z.compare_spec e1 e2) as [->|Hlt|Hgt].
  - rewrite Pos.compare_cont_spec. cbn [Pos.switch_Eq].
    destruct (Pos.compare_spec m1 m2) as [->|Hlt|Hgt]; symmetry.
    + apply Z.compare_refl.
    + apply Z.compare_lt_iff. nia.
    + apply Z.compare_gt_iff. nia.
  - symmetry. apply Z.compare_lt_iff.
    destruct Hc2 as [Hc2|Hc2]; [|lia]. now apply binade_lt.
  - symmetry. apply Z.compare_gt_iff.
    destruct Hc1 as [Hc1|Hc1]; [|lia]. now apply binade_lt.
Qed.

Lemma compare_grid x y :
  nonneg_valid prec emax x = true → nonneg_valid prec emax y = true →
  SFcompare x y = Some (grid prec emax x ?= grid prec emax y).
Proof.
  destruct x as [sx| | |[] mx ex], y as [sy| | |[] my ey]; try discriminate; intros Hx Hy;
    cbn [nonneg_valid] in *.
  - reflexivity.
  - pose proof (bounded_inv _ _ Hy) as (He & _).
    pose proof (grid_finite_pos my ey ltac:(lia)) as Hpos.
    cbn [SFcompare]. f_equal. symmetry. apply Z.compare_lt_iff. exact Hpos.
  - pose proof (bounded_inv _ _ Hx) as (He & _).
    pose proof (grid_finite_pos mx ex ltac:(lia)) as Hpos.
    cbn [SFcompare]. f_equal. symmetry. apply Z.compare_gt_iff. exact Hpos.
  - now apply compare_finite_grid.
Qed.

Lemma leb_grid x y :
  nonneg_valid prec emax x = true → nonneg_valid prec emax y = true →
  SFleb x y = true ↔ grid prec emax x ≤ grid prec emax y.
Proof.
  intros Hx Hy. unfold SFleb. rewrite (compare_grid x y Hx Hy).
  destruct (Z.compare_spec (grid prec emax x) (grid prec emax y)); split; intros; try lia;
    try reflexivity; discriminate.
Qed.

Lemma ltb_grid x y :
  nonneg_valid prec emax x = true → nonneg_valid prec emax y = true →
  SFltb x y = true ↔ grid prec emax x < grid prec emax y.
Proof.
  intros Hx Hy. unfold SFltb. rewrite (compare_grid x y Hx Hy).
  destruct (Z.compare_spec (grid prec emax x) (grid prec emax y)); split; intros; try lia;
    try reflexivity; discriminate.
Qed.

Lemma grid_nonneg x : nonneg_valid prec emax x = true → 0 ≤ grid prec emax x.
Proof.
  destruct x as [s| | |[] m e]; try discriminate; intros H; cbn [grid cond_Zopp]; lia.
Qed.

(** alignment of a mantissa on a lower exponent *)
Lemma shl_align_down (m : positive) e e' :
  e' ≤ e → Z.pos (fst (shl_align m e e')) = Z.pos m * 2 ^ (e - e').
Proof.
  intros H. unfold shl_align. destruct (e' - e) as [|p|p] eqn:E; cbn [fst].
  - replace (e - e') with 0 by lia. cbn. lia.
  - lia.
  - rewrite pos_iter_xO. f_equal. f_equal. lia.
Qed.

(** Subtraction of a smaller time from a larger one: no overflow, and the
    result is the rounding of the exact difference. *)
Lemma SFsub_grid x y :
  nonneg_valid prec emax x = true → nonneg_valid prec emax y = true →
  grid prec emax y ≤ grid prec emax x →
  nonneg_valid prec emax (SFsub prec emax x y) = true
  ∧ grid prec emax (SFsub prec emax x y)
    = round_grid prec (grid prec emax x - grid prec emax y).
Proof.
  intros Hx Hy Hle.
  destruct x as [sx| | |[] mx ex], y as [sy| | |[] my ey]; try discriminate;
    cbn [nonneg_valid] in Hx, Hy.
  - (* 0 - 0 *)
    cbn [grid]. rewrite Z.sub_diag, round_grid_0 by lia.
    destruct sx, sy; cbn; split; reflexivity.
  - (* 0 - y with y positive: excluded *)
    pose proof (bounded_inv _ _ Hy) as (He & _).
    pose proof (grid_finite_pos my ey ltac:(lia)).
    change (grid prec emax (S754_zero sx)) with 0 in Hle. lia.
  - (* x - 0 *)
    cbn [SFsub nonneg_valid]. split; [exact Hx|].
    pose proof (bounded_inv _ _ Hx) as (He & Hm & _).
    cbn [grid cond_Zopp]. rewrite Z.sub_0_r. symmetry.
    apply round_grid_exact; lia.
  - (* both positive *)
    pose proof (bounded_inv _ _ Hx) as (Hex & Hmx & _).
    pose proof (bounded_inv _ _ Hy) as (Hey & Hmy & _).
    cbn [SFsub cond_Zopp]. cbn [grid cond_Zopp] in *.
    set (ez := Z.min ex ey).
    rewrite !shl_align_down by (unfold ez; lia).
    set (D := Z.pos mx * 2 ^ (ex - ez) - Z.pos my * 2 ^ (ey - ez)).
    assert (HD : D * 2 ^ (ez - emin)
                 = Z.pos mx * 2 ^ (ex - emin) - Z.pos my * 2 ^ (ey - emin)).
    { unfold D. rewrite Z.mul_sub_distr_r, <- !Z.mul_assoc, <- !pow2_add by (unfold ez; lia).
      f_equal; f_equal; f_equal; lia. }
    rewrite <- HD.
    pose proof (pow2_pos (ez - emin) ltac:(unfold ez; lia)) as HP.
    destruct D as [|p|p] eqn:ED.
    + cbn [binary_normalize nonneg_valid grid]. rewrite Z.mul_0_l, round_grid_0 by lia.
      split; reflexivity.
    + cbn [binary_normalize].
      destruct (binary_round_grid false p ez ltac:(unfold ez; lia))
        as (m & e & -> & Hb & He & Hv).
      * apply Z.le_lt_trans with (Z.pos mx * 2 ^ (ex - emin)); [|now apply grid_bounded_lt].
        rewrite <- (round_grid_exact prec Hprec (Z.pos mx) (ex - emin)) by lia.
        apply round_grid_mono0; [lia | lia |].
        pose proof (pow2_pos (ey - emin) ltac:(lia)). lia.
      * cbn [nonneg_valid grid cond_Zopp]. split; [exact Hb | exact Hv].
    + exfalso. pose proof (Pos2Z.neg_is_neg p). nia.
Qed.

End Round.

(** ** binary64: truncation, subtraction of times *)

Section Binary64.
Local Open Scope Z_scope.

Lemma prec_pos : 0 < Float.prec.
Proof. reflexivity. Qed.

Lemma prec_lt_emax : Float.prec < Float.emax.
Proof. reflexivity. Qed.

(** [int(x)] is the value divided by the size of the grid. *)
Lemma to_int_grid x :
  Float.timestamp x = true → Float.to_int x = Ok (Float.grid x / 2 ^ 1074).
Proof.
  unfold Float.timestamp, Float.grid, Float.to_int.
  destruct x as [s| | |[] m e]; try discriminate; cbn [nonneg_valid grid cond_Zopp]; intros H.
  - reflexivity.
  - f_equal. apply (bounded_inv _ _ prec_pos) in H as (He & _).
    change (emin Float.prec Float.emax) with (-1074) in *.
    destruct (Z.le_gt_cases 0 e) as [Hpos|Hneg].
    + rewrite Z.shiftl_mul_pow2 by lia.
      replace (e - -1074) with (e + 1074) by lia. rewrite pow2_add by lia.
      rewrite Z.mul_assoc, Z.div_mul; [reflexivity|].
      pose proof (pow2_pos 1074 ltac:(lia)). lia.
    + rewrite Z.shiftl_div_pow2 by lia.
      replace (2 ^ 1074) with (2 ^ (- e) * 2 ^ (e - -1074))
        by (rewrite <- pow2_add by lia; f_equal; lia).
      pose proof (pow2_pos (- e) ltac:(lia)). pose proof (pow2_pos (e - -1074) ltac:(lia)).
      rewrite Z.div_mul_cancel_r by lia. reflexivity.
Qed.

Lemma uptime_value t t0 :
  Float.timestamp t = true → Float.timestamp t0 = true →
  Float.leb t0 t = true →
  Float.to_int (Float.sub t t0) = Ok (elapsed t t0).
Proof.
  intros Ht Ht0 Hle.
  apply (leb_grid _ _ prec_pos _ _ Ht0 Ht) in Hle.
  destruct (SFsub_grid _ _ prec_pos prec_lt_emax t t0 Ht Ht0 Hle) as [Hv Hg].
  unfold Float.sub. rewrite (to_int_grid _ Hv). unfold Float.grid, elapsed.
  now rewrite Hg.
Qed.

Lemma elapsed_mono t0 t1 t2 :
  Float.timestamp t0 = true → Float.timestamp t1 = true → Float.timestamp t2 = true →
  Float.leb t0 t1 = true → Float.leb t1 t2 = true →
  0 ≤ elapsed t1 t0 ≤ elapsed t2 t0.
Proof.
  intros H0 H1 H2 H01 H12.
  apply (leb_grid _ _ prec_pos _ _ H0 H1) in H01.
  apply (leb_grid _ _ prec_pos _ _ H1 H2) in H12.
  unfold elapsed, Float.grid.
  pose proof (pow2_pos 1074 ltac:(lia)) as HP.
  pose proof (round_grid_mono0 53 ltac:(lia) 0 (grid Float.prec Float.emax t1 - grid Float.prec Float.emax t0)
                ltac:(lia) ltac:(lia)) as Hz.
  rewrite round_grid_0 in Hz by lia.
  pose proof (round_grid_mono0 53 ltac:(lia)
                (grid Float.prec Float.emax t1 - grid Float.prec Float.emax t0)
                (grid Float.prec Float.emax t2 - grid Float.prec Float.emax t0)
                ltac:(lia) ltac:(lia)) as Hm.
  split.
  - apply Z.div_pos; lia.
  - apply Z.div_le_mono; lia.
Qed.
End Binary64.

(** ** binary64: [50.0 * random()] *)

Section Uniform.
Local Open Scope Z_scope.

Lemma of_int_50 : Float.of_int 50 = fifty.
Proof. reflexivity. Qed.

Lemma of_int_0 : Float.of_int 0 = S754_zero false.
Proof. reflexivity. Qed.

(** [k / 2**53] is a float: [random()] is exact. *)
Lemma ldexp_random k :
  0 < k < 2 ^ 53 →
  ∃ m e, Float.ldexp k (-53) = S754_finite false m e
         ∧ bounded Float.prec Float.emax m e = true
         ∧ Z.pos m * 2 ^ (e + 1074) = k * 2 ^ 1021.
Proof.
  intros Hk. destruct k as [|p|p]; try lia.
  unfold Float.ldexp. cbn [binary_normalize].
  assert (Hex : round_grid 53 (Z.pos p * 2 ^ 1021) = Z.pos p * 2 ^ 1021)
    by (apply round_grid_exact; lia).
  destruct (binary_round_grid _ _ prec_pos prec_lt_emax false p (-53)) as (m & e & -> & Hb & He & Hv).
  - change (emin Float.prec Float.emax) with (-1074). lia.
  - change (-53 - emin Float.prec Float.emax) with 1021.
    change (Float.emax - emin Float.prec Float.emax) with (53 + 2045).
    change Float.prec with 53. rewrite Hex.
    rewrite pow2_add by lia.
    pose proof (pow2_le 1021 2045 ltac:(lia)). pose proof (pow2_pos 1021 ltac:(lia)). nia.
  - exists m, e. split; [reflexivity|]. split; [exact Hb|].
    change (emin Float.prec Float.emax) with (-1074) in Hv.
    change (-53 - -1074) with 1021 in Hv. change Float.prec with 53 in Hv.
    rewrite Hex in Hv. replace (e + 1074) with (e - -1074) by lia. exact Hv.
Qed.

(** The largest product [50.0 * random()] rounds to the float just below
    [50.0]. *)
Lemma round_top :
  round_grid 53 (50 * (2 ^ 53 - 1) * 2 ^ 1021) = (25 * 2 ^ 48 - 1) * 2 ^ 1027.
Proof. vm_compute. reflexivity. Qed.

Lemma mul_fifty m e k :
  0 < k < 2 ^ 53 →
  bounded Float.prec Float.emax m e = true →
  Z.pos m * 2 ^ (e + 1074) = k * 2 ^ 1021 →
  ∃ m' e', Float.mul fifty (S754_finite false m e) = S754_finite false m' e'
           ∧ bounded Float.prec Float.emax m' e' = true
           ∧ Z.pos m' * 2 ^ (e' + 1074) ≤ (25 * 2 ^ 48 - 1) * 2 ^ 1027.
Proof.
  intros Hk Hb Hv.
  pose proof (bounded_inv _ _ prec_pos _ _ Hb) as (He & Hm & Hn).
  change (emin Float.prec Float.emax) with (-1074) in *.
  change Float.prec with 53 in Hm, Hn. change (53 - 1) with 52 in Hn.
  pose proof (pow2_pos 1021 ltac:(lia)) as HP1021.
  (* the exponent of [random()] is far above the least one *)
  assert (He' : -106 < e).
  { destruct (Z.le_gt_cases e (-106)) as [Hlow|?]; [exfalso|assumption].
    pose proof (pow2_le (e + 1074) 968 ltac:(lia)) as Hp.
    pose proof (pow2_pos (e + 1074) ltac:(lia)).
    assert (E : 2 ^ 1021 = 2 ^ 53 * 2 ^ 968) by (rewrite <- pow2_add by lia; reflexivity).
    nia. }
  destruct Hn as [Hn|Hn]; [|lia].
  (* the value of the exact product *)
  assert (HX : Z.pos (7036874417766400 * m) * 2 ^ (-47 + e - -1074) = 50 * k * 2 ^ 1021).
  { rewrite Pos2Z.inj_mul. change (Z.pos 7036874417766400) with (50 * 2 ^ 47).
    replace (-47 + e - -1074) with (e + 1027) by lia.
    replace (e + 1074) with (e + 1027 + 47) in Hv by lia.
    rewrite pow2_add in Hv by lia.
    replace (50 * k * 2 ^ 1021) with (50 * (k * 2 ^ 1021)) by ring.
    rewrite <- Hv. ring. }
  assert (Hround : round_grid 53 (50 * k * 2 ^ 1021) ≤ (25 * 2 ^ 48 - 1) * 2 ^ 1027).
  { rewrite <- round_top. apply round_grid_mono0; [lia | lia |].
    apply Z.mul_le_mono_nonneg_r; lia. }
  unfold Float.mul, fifty. cbn [SFmul xorb].
  destruct (binary_round_aux_grid _ _ prec_pos prec_lt_emax false (7036874417766400 * m) (-47 + e))
    as (m' & e' & -> & Hb' & He'' & Hv').
  - change (emin Float.prec Float.emax) with (-1074). lia.
  - pose proof (digits2_bounds (7036874417766400 * m)) as [_ Hd].
    set (d := Z.pos (digits2_pos (7036874417766400 * m))) in *.
    assert (104 < d).
    { apply (Z.pow_lt_mono_r_iff 2); [lia | lia |].
      eapply Z.le_lt_trans; [|exact Hd].
      rewrite Pos2Z.inj_mul. change (Z.pos 7036874417766400) with (25 * 2 ^ 48).
      change (2 ^ 104) with (2 ^ 52 * 2 ^ 52).
      pose proof (pow2_pos 52 ltac:(lia)). pose proof (pow2_pos 48 ltac:(lia)).
      assert (2 ^ 52 ≤ 25 * 2 ^ 48) by (change (2 ^ 52) with (16 * 2 ^ 48); lia).
      nia. }
    unfold SpecFloat.fexp, Float.prec. lia.
  - change (emin Float.prec Float.emax) with (-1074). change Float.prec with 53.
    rewrite HX. eapply Z.le_lt_trans; [exact Hround|].
    change (Float.emax - -1074) with (1071 + 1027). rewrite pow2_add by lia.
    apply Z.mul_lt_mono_pos_r; [apply pow2_pos; lia|].
    change (2 ^ 1071) with (2 ^ 1018 * 2 ^ 53).
    pose proof (pow2_pos 1018 ltac:(lia)). pose proof (pow2_pos 48 ltac:(lia)).
    assert (25 * 2 ^ 48 ≤ 2 ^ 53) by (change (2 ^ 53) with (32 * 2 ^ 48); lia).
    pose proof (pow2_pos 53 ltac:(lia)). nia.
  - exists m', e'. split; [reflexivity|]. split; [exact Hb'|].
    change (emin Float.prec Float.emax) with (-1074) in Hv'. change Float.prec with 53 in Hv'.
    rewrite HX in Hv'. replace (e' + 1074) with (e' - -1074) by lia. rewrite Hv'. exact Hround.
Qed.

(** [0 + 50 * random()] for every draw. *)
Lemma uniform_0_50 k :
  0 ≤ k < 2 ^ 53 →
  let x := Float.add (Float.of_int 0) (Float.mul (Float.of_int (50 - 0)) (Float.ldexp k (-53))) in
  Float.leb (Float.of_int 0) x = true ∧ Float.ltb x (Float.of_int 50) = true.
Proof.
  intros Hk x. subst x. change (50 - 0) with 50. rewrite of_int_0, of_int_50.
  destruct (Z.eq_dec k 0) as [->|Hk0].
  - split; reflexivity.
  - destruct (ldexp_random k ltac:(lia)) as (m & e & -> & Hb & Hv).
    destruct (mul_fifty m e k ltac:(lia) Hb Hv) as (m' & e' & -> & Hb' & Hle).
    unfold Float.add. cbn [SFadd]. split; [reflexivity|].
    unfold Float.ltb.
    apply (ltb_grid _ _ prec_pos (S754_finite false m' e') fifty Hb' eq_refl).
    cbn [grid cond_Zopp fifty]. change (emin Float.prec Float.emax) with (-1074).
    replace (e' - -1074) with (e' + 1074) by lia.
    eapply Z.le_lt_trans; [exact Hle|].
    change (-47 - -1074) with 1027. change (Z.pos 7036874417766400) with (25 * 2 ^ 48).
    apply Z.mul_lt_mono_pos_r; [apply pow2_pos; lia | lia].
Qed.
End Uniform.

(** ** Running [M]: the equations of bind *)

Section Bind.
Context {A B : Type}.
Implicit Types (m : M A) (f : A → M B).

Lemma bind_ok m f pf st a st1 :
  m pf st = (Ok a, st1) → (m ≫= f) pf st = f a pf st1.
Proof. intros H. unfold mbind, M_bind. now rewrite H. Qed.

Lemma bind_raise m f pf st e st1 :
  m pf st = (Raise e, st1) → (m ≫= f) pf st = (Raise e, st1).
Proof. intros H. unfold mbind, M_bind. now rewrite H. Qed.

Lemma bind_inv_ok m f pf st b st2 :
  (m ≫= f) pf st = (Ok b, st2) →
  ∃ a st1, m pf st = (Ok a, st1) ∧ f a pf st1 = (Ok b, st2).
Proof.
  unfold mbind, M_bind. destruct (m pf st) as [[a|e] st1]; intros H.
  - now exists a, st1.
  - discriminate.
Qed.
End Bind.

(** Unfold the plumbing of [M] in the goal. *)
Ltac run :=
  repeat (cbn -[Z.pow Z.modulo];
          unfold mbind, mret, M_bind, M_ret, raise, lift, ask, get, modify,
            attempt, try_except, print, alloc, deref, log_call,
            os.getenv, sys.modules_contains).

(** ** The factory *)

Lemma factory_lookup (key : string) :
  SoilMonitorFactory._soil_monitors _soil_monitor_factory !! key =
    if decide (key = "mocked") then Some class_MockedSoilMonitor
    else if decide (key = "adafruitstemma") then Some class_AdafruitStemmaSoilMonitor
    else None.
Proof.
  unfold _soil_monitor_factory, SoilMonitorFactory.register_soil_monitor,
    SoilMonitorFactory.__init__; cbn.
  repeat case_decide; subst; simplify_map_eq; done.
Qed.

Lemma get_soil_monitor_missing (f : SoilMonitorFactory.t) (key : string) pf st :
  SoilMonitorFactory._soil_monitors f !! key = None →
  SoilMonitorFactory.get_soil_monitor f key pf st = (Raise (KeyError key), st).
Proof. intros H. unfold SoilMonitorFactory.get_soil_monitor. now rewrite H. Qed.

Lemma get_soil_monitor_falsy (f : SoilMonitorFactory.t) (key : string) pf st :
  SoilMonitorFactory._soil_monitors f !! key = Some py_None →
  SoilMonitorFactory.get_soil_monitor f key pf st = (Raise (ValueError key), st).
Proof. intros H. unfold SoilMonitorFactory.get_soil_monitor. now rewrite H. Qed.

Lemma get_soil_monitor_mocked pf st :
  SoilMonitorFactory.get_soil_monitor _soil_monitor_factory "mocked" pf st =
    (Ok (length (heap st)), set_heap (λ h, h ++ [Mocked_obj]) st).
Proof. reflexivity. Qed.

(** C1 (the code at an unregistered key): the lookup of a key that was
    never registered in the module's factory ends in [KeyError], raised by
    the subscript of line 111; the [ValueError] of line 113 is not reached. *)
Theorem get_soil_monitor_unregistered_KeyError pf st :
  SoilMonitorFactory.get_soil_monitor _soil_monitor_factory "thermocouple" pf st =
    (Raise (KeyError "thermocouple"), st)
  ∧ fst (SoilMonitorFactory.get_soil_monitor _soil_monitor_factory "thermocouple" pf st)
    ≠ Raise (ValueError "thermocouple").
Proof.
  assert (H : SoilMonitorFactory.get_soil_monitor _soil_monitor_factory "thermocouple" pf st
              = (Raise (KeyError "thermocouple"), st)).
  { apply get_soil_monitor_missing. now rewrite factory_lookup. }
  split; [exact H | rewrite H; discriminate].
Qed.

(** ** The hardware back end *)

Lemma adafruit_saturation_not_ready pf st self ss :
  heap st !! self = Some (AdafruitStemma_obj false ss) →
  _AdafruitStemmaSoilMonitor.get_soil_saturation self pf st =
    (Ok (VInt (-1)), noted self m_get_soil_saturation st).
Proof.
  intros H. unfold _AdafruitStemmaSoilMonitor.get_soil_saturation,
    _AdafruitStemmaSoilMonitor.loaded. run. now rewrite H.
Qed.

Lemma adafruit_temp_not_ready pf st self ss :
  heap st !! self = Some (AdafruitStemma_obj false ss) →
  _AdafruitStemmaSoilMonitor.get_air_temp self pf st =
    (Ok (VInt (-1)), noted self m_get_air_temp st).
Proof.
  intros H. unfold _AdafruitStemmaSoilMonitor.get_air_temp,
    _AdafruitStemmaSoilMonitor.loaded. run. now rewrite H.
Qed.

(** C4: an instance of the hardware back end whose [loaded] flag is false
    returns exactly [-1] from [get_soil_saturation] and from [get_air_temp],
    raising nothing and printing the note; [get_name] returns
    ["Adafruit Stemma"] whatever the flag. *)
Theorem adafruit_not_ready_sentinel pf st self (loaded : bool) ss :
  heap st !! self = Some (AdafruitStemma_obj loaded ss) →
  _AdafruitStemmaSoilMonitor.get_name self pf st =
    (Ok "Adafruit Stemma", set_calls (λ c, c ++ [(self, m_get_name)]) st)
  ∧ (loaded = false →
     _AdafruitStemmaSoilMonitor.get_soil_saturation self pf st =
       (Ok (VInt (-1)), noted self m_get_soil_saturation st)
     ∧ _AdafruitStemmaSoilMonitor.get_air_temp self pf st =
       (Ok (VInt (-1)), noted self m_get_air_temp st)).
Proof.
  intros H. split; [reflexivity|]. intros ->. split.
  - eapply adafruit_saturation_not_ready, H.
  - eapply adafruit_temp_not_ready, H.
Qed.

Lemma adafruit_not_ready_sentinel_witness :
  _AdafruitStemmaSoilMonitor.get_name 0 workstation degraded_heap =
    (Ok "Adafruit Stemma", set_calls (λ c, c ++ [(0, m_get_name)]) degraded_heap)
  ∧ (false = false →
     _AdafruitStemmaSoilMonitor.get_soil_saturation 0 workstation degraded_heap =
       (Ok (VInt (-1)), noted 0 m_get_soil_saturation degraded_heap)
     ∧ _AdafruitStemmaSoilMonitor.get_air_temp 0 workstation degraded_heap =
       (Ok (VInt (-1)), noted 0 m_get_air_temp degraded_heap)).
Proof.
  apply (adafruit_not_ready_sentinel workstation degraded_heap 0 false None).
  reflexivity.
Defined.

Lemma adafruit_init_modules_missing pf st :
  driver_modules_loaded st = false →
  ∃ st', _AdafruitStemmaSoilMonitor.__init__ pf st = (Ok (length (heap st)), st')
         ∧ heap st' = heap st ++ [AdafruitStemma_obj false None]
         ∧ clock_pos st' = clock_pos st.
Proof.
  unfold driver_modules_loaded, _AdafruitStemmaSoilMonitor.__init__.
  destruct (bool_decide ("board" ∈ sys_modules st)) eqn:Hb;
    destruct (bool_decide ("adafruit_seesaw.seesaw" ∈ sys_modules st)) eqn:Hs;
    intros H; try discriminate;
    repeat (run; rewrite ?Hb, ?Hs); eexists; (split; [reflexivity | split; reflexivity]).
Qed.

Lemma adafruit_init_modules_loaded pf st :
  driver_modules_loaded st = true →
  _AdafruitStemmaSoilMonitor.__init__ pf st =
    match drv_I2C pf with
    | Raise e => (Raise e, st)
    | Ok i2c_bus =>
        match drv_Seesaw pf i2c_bus 0x36 with
        | Raise e => (Raise e, st)
        | Ok dev => (Ok (length (heap st)),
                     set_heap (λ h, h ++ [AdafruitStemma_obj true (Some dev)]) st)
        end
    end.
Proof.
  unfold driver_modules_loaded, _AdafruitStemmaSoilMonitor.__init__.
  destruct (bool_decide ("board" ∈ sys_modules st)) eqn:Hb;
    destruct (bool_decide ("adafruit_seesaw.seesaw" ∈ sys_modules st)) eqn:Hs;
    intros H; try discriminate.
  repeat (run; rewrite ?Hb, ?Hs).
  unfold board.I2C, Seesaw.__init__. run.
  destruct (drv_I2C pf) as [b|e]; [|reflexivity].
  destruct (drv_Seesaw pf b 54) as [dev|e]; reflexivity.
Qed.

(** No method of either back end touches the heap: a flag that
    construction left false stays false. *)
Lemma interface_methods_keep_heap pf st self :
  heap (snd (SoilMonitorInterface.get_soil_saturation self pf st)) = heap st
  ∧ heap (snd (SoilMonitorInterface.get_air_temp self pf st)) = heap st
  ∧ heap (snd (SoilMonitorInterface.get_name self pf st)) = heap st.
Proof.
  unfold SoilMonitorInterface.get_soil_saturation, SoilMonitorInterface.get_air_temp,
    SoilMonitorInterface.get_name. run.
  destruct (heap st !! self) as [[|l ss]|] eqn:H; run; [ | | done].
  - unfold _MockedSoilMonitor.get_soil_saturation, _MockedSoilMonitor.get_air_temp,
      _MockedSoilMonitor.get_name, random.randint, random.uniform, random.randrange,
      random.random, random._randbelow, random.draw. run. done.
  - unfold _AdafruitStemmaSoilMonitor.get_soil_saturation,
      _AdafruitStemmaSoilMonitor.get_air_temp, _AdafruitStemmaSoilMonitor.get_name,
      _AdafruitStemmaSoilMonitor.loaded, _AdafruitStemmaSoilMonitor.ss. run.
    rewrite H. run. destruct l; run; [|done].
    rewrite H. destruct ss as [dev|]; run; [|done].
    unfold Seesaw.moisture_read, Seesaw.get_temp, round. run.
    destruct (drv_moisture_read pf (hw_pos st)), (drv_get_temp pf (hw_pos st)); done.
Qed.

(** The methods of the hardware back end, on whatever address they are
    called, leave the heap as it is. *)
Lemma adafruit_methods_keep_heap pf s self :
  heap (snd (_AdafruitStemmaSoilMonitor.get_soil_saturation self pf s)) = heap s
  ∧ heap (snd (_AdafruitStemmaSoilMonitor.get_air_temp self pf s)) = heap s
  ∧ heap (snd (_AdafruitStemmaSoilMonitor.get_name self pf s)) = heap s.
Proof.
  unfold _AdafruitStemmaSoilMonitor.get_soil_saturation,
    _AdafruitStemmaSoilMonitor.get_air_temp, _AdafruitStemmaSoilMonitor.get_name,
    _AdafruitStemmaSoilMonitor.loaded, _AdafruitStemmaSoilMonitor.ss. run.
  destruct (heap s !! self) as [[|l ss]|] eqn:H; run; [done | | done].
  destruct l; run; [|done].
  rewrite H. destruct ss as [dev|]; run; [|done].
  unfold Seesaw.moisture_read, Seesaw.get_temp, round. run.
  destruct (drv_moisture_read pf (hw_pos s)), (drv_get_temp pf (hw_pos s)); done.
Qed.

Lemma method_call_keeps_heap self m pf s :
  heap (snd (method_call self m pf s)) = heap s.
Proof.
  pose proof (interface_methods_keep_heap pf s self) as (H1 & H2 & H3).
  destruct m; cbn [method_call]; unfold mbind, M_bind.
  - destruct (SoilMonitorInterface.get_soil_saturation self pf s) as [[v|e] s1]; exact H1.
  - destruct (SoilMonitorInterface.get_air_temp self pf s) as [[v|e] s1]; exact H2.
  - destruct (SoilMonitorInterface.get_name self pf s) as [[v|e] s1]; exact H3.
Qed.

Lemma method_calls_keep_heap self (ms : list method) pf : ∀ s,
  heap (snd (method_calls self ms pf s)) = heap s.
Proof.
  induction ms as [|m ms IH]; intros s; [reflexivity|].
  cbn [method_calls]. unfold mbind, M_bind, attempt.
  pose proof (method_call_keeps_heap self m pf s) as H.
  destruct (method_call self m pf s) as [r s1]. cbn in H. now rewrite IH.
Qed.

(** C6 (as stated, refuted): with both driver modules loaded and a bus
    that cannot be opened, the exception of [board.I2C()] leaves
    [__init__]: construction does not always complete. *)
Lemma adafruit_init_can_raise :
  ¬ (∀ pf st, ∃ self st', _AdafruitStemmaSoilMonitor.__init__ pf st = (Ok self, st')).
Proof.
  intros H. destruct (H pi_without_bus drivers_imported) as (self & st' & E).
  rewrite adafruit_init_modules_loaded in E by reflexivity.
  discriminate E.
Qed.

(** C6 (amended): when one of the driver modules is missing from
    [sys.modules], [__init__] completes with the [loaded] flag false and
    calls no driver; when both are there, it completes with the flag true
    exactly when [board.I2C()] and [Seesaw(i2c_bus, addr=0x36)] return, and
    an exception of either leaves the constructor.  No method sets the
    flag back: whatever the instance and the state, each of the three
    methods leaves every instance as it is, so an instance constructed
    with the flag false keeps it false through every later call. *)
Theorem adafruit_init_outcome pf st :
  (driver_modules_loaded st = false →
   ∃ st', _AdafruitStemmaSoilMonitor.__init__ pf st = (Ok (length (heap st)), st')
          ∧ heap st' = heap st ++ [AdafruitStemma_obj false None])
  ∧ (driver_modules_loaded st = true →
     _AdafruitStemmaSoilMonitor.__init__ pf st =
       match drv_I2C pf with
       | Raise e => (Raise e, st)
       | Ok i2c_bus =>
           match drv_Seesaw pf i2c_bus 0x36 with
           | Raise e => (Raise e, st)
           | Ok dev => (Ok (length (heap st)),
                        set_heap (λ h, h ++ [AdafruitStemma_obj true (Some dev)]) st)
           end
       end)
  ∧ (∀ self s,
       heap (snd (_AdafruitStemmaSoilMonitor.get_soil_saturation self pf s)) = heap s
       ∧ heap (snd (_AdafruitStemmaSoilMonitor.get_air_temp self pf s)) = heap s
       ∧ heap (snd (_AdafruitStemmaSoilMonitor.get_name self pf s)) = heap s)
  ∧ (∀ self s ss (ms : list method),
       heap s !! self = Some (AdafruitStemma_obj false ss) →
       heap (snd (method_calls self ms pf s)) !! self = Some (AdafruitStemma_obj false ss)).
Proof.
  split; [|split; [|split]].
  - intros H. destruct (adafruit_init_modules_missing pf st H) as (st' & E & Hh & _).
    now exists st'.
  - apply adafruit_init_modules_loaded.
  - intros self s. apply adafruit_methods_keep_heap.
  - intros self s ss ms H. now rewrite method_calls_keep_heap.
Qed.

Lemma adafruit_init_outcome_witness :
  (∃ st', _AdafruitStemmaSoilMonitor.__init__ workstation initial = (Ok 0, st')
          ∧ heap st' = [AdafruitStemma_obj false None])
  ∧ _AdafruitStemmaSoilMonitor.__init__ pi_without_bus drivers_imported =
      (Raise (OSError "No Hardware I2C on (scl,sda)"), drivers_imported)
  ∧ heap (snd (method_calls 0 [m_get_soil_saturation; m_get_air_temp; m_get_name]
                 workstation degraded_heap)) !! 0
    = Some (AdafruitStemma_obj false None).
Proof.
  split; [|split].
  - apply (proj1 (adafruit_init_outcome workstation initial)). reflexivity.
  - apply (proj1 (proj2 (adafruit_init_outcome pi_without_bus drivers_imported))). reflexivity.
  - apply (proj2 (proj2 (proj2 (adafruit_init_outcome workstation initial)))). reflexivity.
Defined.

(** The guarded imports: a [board] that raises [NotImplementedError] is
    survived, with neither driver module in [sys.modules] afterwards; any
    other exception of an import leaves the module body. *)
Lemma import_guard_not_implemented pf st :
  "board" ∉ sys_modules st →
  "adafruit_seesaw.seesaw" ∉ sys_modules st →
  import_outcome pf "time" = None →
  import_outcome pf "board" = Some NotImplementedError →
  ∃ st', import_guard pf st = (Ok tt, st') ∧ driver_modules_loaded st' = false
         ∧ heap st' = heap st.
Proof.
  intros Hb Hs Ht Hi. unfold import_guard, import. run.
  destruct (bool_decide ("time" ∈ sys_modules st)) eqn:Htime; run.
  - rewrite (bool_decide_eq_false_2 _ Hb). run. rewrite Hi. run.
    eexists; split; [reflexivity|]. split; [|reflexivity].
    unfold driver_modules_loaded. cbn. now rewrite (bool_decide_eq_false_2 _ Hb).
  - rewrite Ht. run.
    assert (Hb' : "board" ∉ sys_modules st ∪ {[ "time" ]}).
    { rewrite elem_of_union, elem_of_singleton. intros [?|?]; [done|discriminate]. }
    rewrite (bool_decide_eq_false_2 _ Hb'). run. rewrite Hi. run.
    eexists; split; [reflexivity|]. split; [|reflexivity].
    unfold driver_modules_loaded. cbn. now rewrite (bool_decide_eq_false_2 _ Hb').
Qed.

Lemma import_guard_not_installed pf st :
  "time" ∈ sys_modules st →
  "board" ∉ sys_modules st →
  import_outcome pf "board" = Some (ModuleNotFoundError "board") →
  import_guard pf st = (Raise (ModuleNotFoundError "board"), st).
Proof.
  intros Ht Hb Hi. unfold import_guard, import. run.
  rewrite (bool_decide_eq_true_2 _ Ht). run.
  rewrite (bool_decide_eq_false_2 _ Hb). run. now rewrite Hi.
Qed.

(** ** Selection of the back end *)

Lemma SoilMonitor_init_with_key pf st :
  SoilMonitor.__init__ pf st =
    let name := environ pf !! "soil_monitor" in
    let key := if SoilMonitor.falsy name then "mocked" else default "" name in
    match SoilMonitorFactory.get_soil_monitor _soil_monitor_factory key pf st with
    | (Ok backend, st') =>
        (Ok {| SoilMonitor._soil_monitor_name := key; SoilMonitor._soil_monitor := backend |}, st')
    | (Raise e, st') => (Raise e, st')
    end.
Proof.
  unfold SoilMonitor.__init__. run.
  destruct (SoilMonitorFactory.get_soil_monitor _ _ pf st) as [[b|e] st']; reflexivity.
Qed.

(** The module body of [services/soil.py] in a package below the top
    level: the relative import resolves, and what remains is the body of
    [hardware/soil_monitor.py] and line 3. *)
Lemma services_soil_resolved package pf st :
  2 ≤ length package →
  services_soil package pf st = (import_guard;; SoilMonitor.__init__) pf st.
Proof.
  intros H. unfold services_soil, resolve_name.
  destruct package as [|p [|q l]]; cbn in H; try lia.
  case_decide as Hd; [cbn in Hd; lia|]. reflexivity.
Qed.

(** [app.py] up to the relative import of [services/soil.py]. *)
Lemma startup_eq pf st :
  app.startup pf st =
    match import "flask" pf st with
    | (Ok _, st1) =>
        (Raise (ImportError "attempted relative import beyond top-level package"), st1)
    | (Raise e, st1) => (Raise e, st1)
    end.
Proof.
  unfold app.startup, mbind, M_bind.
  destruct (import "flask" pf st) as [[[]|e] st1]; reflexivity.
Qed.

(** C5: with the variable [soil_monitor] unset or empty, construction of
    [SoilMonitor] selects the key ["mocked"] and holds a new instance of
    the simulated back end; with any other value that is not a registered
    key, the constructor raises (the [KeyError] of the factory), and so
    does start-up, before any request is served; the constructor is
    called by the module body of [services/soil.py], which therefore
    raises at its import, in whatever package it is loaded. *)
Theorem SoilMonitor_default_and_unknown pf st :
  (environ pf !! "soil_monitor" = None ∨ environ pf !! "soil_monitor" = Some "" →
   SoilMonitor.__init__ pf st =
     (Ok {| SoilMonitor._soil_monitor_name := "mocked";
            SoilMonitor._soil_monitor := length (heap st) |},
      set_heap (λ h, h ++ [Mocked_obj]) st))
  ∧ (∀ key : string,
       environ pf !! "soil_monitor" = Some key →
       key ≠ "" → key ≠ "mocked" → key ≠ "adafruitstemma" →
       SoilMonitor.__init__ pf st = (Raise (KeyError key), st)
       ∧ (∃ e st', app.startup pf st = (Raise e, st'))
       ∧ ∀ package, ∃ e st', services_soil package pf st = (Raise e, st')).
Proof.
  split.
  - intros H. rewrite SoilMonitor_init_with_key.
    destruct H as [-> | ->]; reflexivity.
  - intros key Hkey Hne Hm Ha.
    assert (Hinit : ∀ st0, SoilMonitor.__init__ pf st0 = (Raise (KeyError key), st0)).
    { intros st0. rewrite SoilMonitor_init_with_key, Hkey. cbn.
      rewrite (bool_decide_eq_false_2 _ Hne).
      rewrite get_soil_monitor_missing; [reflexivity|].
      rewrite factory_lookup. now repeat case_decide. }
    split; [apply Hinit|]. split.
    + rewrite startup_eq.
      destruct (import "flask" pf st) as [[[]|e] st1]; eexists _, _; reflexivity.
    + intros package. unfold services_soil.
      destruct (resolve_name ["hardware"; "soil_monitor"] package 2 pf st)
        as [[n|e] st0] eqn:Hres.
      * rewrite (bind_ok _ _ _ _ _ _ Hres).
        destruct (import_guard pf st0) as [[[]|e] st1] eqn:Hguard.
        -- exists (KeyError key), st1.
           rewrite (bind_ok _ _ _ _ _ _ Hguard). apply Hinit.
        -- exists e, st1. now rewrite (bind_raise _ _ _ _ _ _ Hguard).
      * exists e, st0. now rewrite (bind_raise _ _ _ _ _ _ Hres).
Qed.

Lemma SoilMonitor_default_and_unknown_witness :
  SoilMonitor.__init__ workstation initial =
    (Ok {| SoilMonitor._soil_monitor_name := "mocked"; SoilMonitor._soil_monitor := 0 |},
     set_heap (λ h, h ++ [Mocked_obj]) initial)
  ∧ (SoilMonitor.__init__ (with_environ {[ "soil_monitor" := "thermocouple" ]} workstation) initial
       = (Raise (KeyError "thermocouple"), initial)
     ∧ (∃ e st', app.startup (with_environ {[ "soil_monitor" := "thermocouple" ]} workstation) initial
                 = (Raise e, st'))
     ∧ ∀ package, ∃ e st',
         services_soil package (with_environ {[ "soil_monitor" := "thermocouple" ]} workstation)
           initial = (Raise e, st')).
Proof.
  split.
  - apply (proj1 (SoilMonitor_default_and_unknown workstation initial)).
    left. reflexivity.
  - apply (proj2 (SoilMonitor_default_and_unknown
                    (with_environ {[ "soil_monitor" := "thermocouple" ]} workstation) initial)
             "thermocouple"); [reflexivity | discriminate ..].
Defined.

(** ** The status service *)

Lemma status_dom (v1 v2 : value) :
  dom ({[ "saturation" := v1; "temp" := v2 ]} : gmap string value)
  = ({[ "saturation"; "temp" ]} : gset string).
Proof. now rewrite dom_insert_L, dom_singleton_L. Qed.

Lemma get_soil_status_returns pf st sm v1 st1 v2 st2 :
  SoilMonitor.get_soil_saturation sm pf st = (Ok v1, st1) →
  SoilMonitor.get_air_temp sm pf st1 = (Ok v2, st2) →
  SoilService.get_soil_status sm pf st =
    (Ok {[ "saturation" := v1; "temp" := v2 ]}, st2).
Proof.
  intros H1 H2. unfold SoilService.get_soil_status.
  rewrite (bind_ok _ _ _ _ _ _ H1), (bind_ok _ _ _ _ _ _ H2). reflexivity.
Qed.

Lemma get_soil_status_raises pf st sm :
  (∀ e st1, SoilMonitor.get_soil_saturation sm pf st = (Raise e, st1) →
            SoilService.get_soil_status sm pf st = (Raise e, st1))
  ∧ (∀ v1 st1 e st2,
       SoilMonitor.get_soil_saturation sm pf st = (Ok v1, st1) →
       SoilMonitor.get_air_temp sm pf st1 = (Raise e, st2) →
       SoilService.get_soil_status sm pf st = (Raise e, st2)).
Proof.
  split.
  - intros e st1 H. unfold SoilService.get_soil_status.
    now rewrite (bind_raise _ _ _ _ _ _ H).
  - intros v1 st1 e st2 H1 H2. unfold SoilService.get_soil_status.
    now rewrite (bind_ok _ _ _ _ _ _ H1), (bind_raise _ _ _ _ _ _ H2).
Qed.

(** The reads of the simulated back end and of the hardware back end that
    is not ready always return. *)
Lemma mocked_reads_return pf st self :
  heap st !! self = Some Mocked_obj →
  ∃ n x,
    SoilMonitorInterface.get_soil_saturation self pf st =
      (Ok (VInt n), set_rng_pos S (set_calls (λ c, c ++ [(self, m_get_soil_saturation)]) st))
    ∧ SoilMonitorInterface.get_air_temp self pf st =
      (Ok (VFloat x), set_rng_pos S (set_calls (λ c, c ++ [(self, m_get_air_temp)]) st)).
Proof.
  intros H. eexists _, _.
  unfold SoilMonitorInterface.get_soil_saturation, SoilMonitorInterface.get_air_temp.
  run. rewrite H. split; reflexivity.
Qed.

Lemma not_ready_reads_return pf st self ss :
  heap st !! self = Some (AdafruitStemma_obj false ss) →
  SoilMonitorInterface.get_soil_saturation self pf st =
    (Ok (VInt (-1)), noted self m_get_soil_saturation st)
  ∧ SoilMonitorInterface.get_air_temp self pf st =
    (Ok (VInt (-1)), noted self m_get_air_temp st).
Proof.
  intros H.
  unfold SoilMonitorInterface.get_soil_saturation, SoilMonitorInterface.get_air_temp.
  run. rewrite H. split.
  - eapply adafruit_saturation_not_ready, H.
  - eapply adafruit_temp_not_ready, H.
Qed.

(** A read of the ready hardware back end raises what its driver call
    raises. *)
Lemma ready_reads_raise pf st sm dev :
  heap st !! SoilMonitor._soil_monitor sm = Some (AdafruitStemma_obj true (Some dev)) →
  (∀ e, drv_moisture_read pf (hw_pos st) = Raise e →
        fst (SoilMonitor.get_soil_saturation sm pf st) = Raise e)
  ∧ (∀ e, drv_get_temp pf (hw_pos st) = Raise e →
          fst (SoilMonitor.get_air_temp sm pf st) = Raise e).
Proof.
  intros Hb.
  unfold SoilMonitor.get_soil_saturation, SoilMonitor.get_air_temp,
    SoilMonitorInterface.get_soil_saturation, SoilMonitorInterface.get_air_temp,
    _AdafruitStemmaSoilMonitor.get_soil_saturation, _AdafruitStemmaSoilMonitor.get_air_temp,
    _AdafruitStemmaSoilMonitor.loaded, _AdafruitStemmaSoilMonitor.ss,
    Seesaw.moisture_read, Seesaw.get_temp, round.
  split; intros e He; repeat (run; rewrite ?Hb); now rewrite He.
Qed.

(** C8 (as stated, refuted): in the ready state a read of the driver that
    raises leaves [get_soil_status] as an exception; no dictionary is
    returned. *)
Lemma get_soil_status_can_raise :
  ¬ (∀ pf st sm o,
       heap st !! SoilMonitor._soil_monitor sm = Some o →
       ∃ d st', SoilService.get_soil_status sm pf st = (Ok d, st')).
Proof.
  intros H.
  destruct (H pi_sensor_lost ready_heap (wrapper "adafruitstemma" 0) _ eq_refl)
    as (d & st' & E).
  discriminate E.
Qed.

(** C8 (amended): whenever the two reads of the back end return, in the
    order [get_soil_saturation] then [get_air_temp], [get_soil_status]
    returns the dictionary with exactly the keys [saturation] and [temp]
    bound to the two values as they came; the reads always return for the
    simulated back end and for the hardware back end that is not ready;
    an exception of a read leaves [get_soil_status] as it is (after an
    exception of the first read the second is not made), and a read of
    the ready hardware back end raises whenever its driver call does. *)
Theorem get_soil_status_payload pf st sm :
  (∀ v1 st1 v2 st2,
     SoilMonitor.get_soil_saturation sm pf st = (Ok v1, st1) →
     SoilMonitor.get_air_temp sm pf st1 = (Ok v2, st2) →
     ∃ d : gmap string value,
       SoilService.get_soil_status sm pf st = (Ok d, st2)
       ∧ dom d = {[ "saturation"; "temp" ]}
       ∧ d !! "saturation" = Some v1 ∧ d !! "temp" = Some v2)
  ∧ (∀ o, heap st !! SoilMonitor._soil_monitor sm = Some o →
          (o = Mocked_obj ∨ ∃ ss, o = AdafruitStemma_obj false ss) →
          ∃ v1 st1 v2 st2,
            SoilMonitor.get_soil_saturation sm pf st = (Ok v1, st1)
            ∧ SoilMonitor.get_air_temp sm pf st1 = (Ok v2, st2))
  ∧ (∀ e st1, SoilMonitor.get_soil_saturation sm pf st = (Raise e, st1) →
              SoilService.get_soil_status sm pf st = (Raise e, st1))
  ∧ (∀ v1 st1 e st2,
       SoilMonitor.get_soil_saturation sm pf st = (Ok v1, st1) →
       SoilMonitor.get_air_temp sm pf st1 = (Raise e, st2) →
       SoilService.get_soil_status sm pf st = (Raise e, st2))
  ∧ (∀ dev, heap st !! SoilMonitor._soil_monitor sm
            = Some (AdafruitStemma_obj true (Some dev)) →
       (∀ e, drv_moisture_read pf (hw_pos st) = Raise e →
             fst (SoilMonitor.get_soil_saturation sm pf st) = Raise e)
       ∧ (∀ e, drv_get_temp pf (hw_pos st) = Raise e →
               fst (SoilMonitor.get_air_temp sm pf st) = Raise e)).
Proof.
  split; [|split; [|split; [|split]]];
    [| | apply (proj1 (get_soil_status_raises pf st sm))
       | apply (proj2 (get_soil_status_raises pf st sm))
       | intros dev; apply ready_reads_raise].
  - intros v1 st1 v2 st2 H1 H2. eexists. split; [|split; [|split]].
    + apply (get_soil_status_returns _ _ _ _ _ _ _ H1 H2).
    + apply status_dom.
    + reflexivity.
    + reflexivity.
  - intros o Ho [-> | [ss ->]]; unfold SoilMonitor.get_soil_saturation, SoilMonitor.get_air_temp.
    + destruct (mocked_reads_return pf st _ Ho) as (n & x & Hn & _).
      destruct (mocked_reads_return pf
                  (set_rng_pos S (set_calls (λ c, c ++ [(SoilMonitor._soil_monitor sm, m_get_soil_saturation)]) st))
                  (SoilMonitor._soil_monitor sm) Ho) as (n' & x' & _ & Hx).
      eexists _, _, _, _. split; [exact Hn | exact Hx].
    + destruct (not_ready_reads_return pf st _ _ Ho) as [Hs _].
      destruct (not_ready_reads_return pf (noted (SoilMonitor._soil_monitor sm) m_get_soil_saturation st)
                  (SoilMonitor._soil_monitor sm) ss Ho) as [_ Ht].
      eexists _, _, _, _. split; [exact Hs | exact Ht].
Qed.

Lemma get_soil_status_payload_witness :
  (∃ d : gmap string value,
     SoilService.get_soil_status (wrapper "adafruitstemma" 0) workstation degraded_heap =
       (Ok d, noted 0 m_get_air_temp (noted 0 m_get_soil_saturation degraded_heap))
     ∧ dom d = {[ "saturation"; "temp" ]}
     ∧ d !! "saturation" = Some (VInt (-1)) ∧ d !! "temp" = Some (VInt (-1)))
  ∧ fst (SoilService.get_soil_status (wrapper "adafruitstemma" 0) pi_sensor_lost ready_heap)
    = Raise (RuntimeError "Could not get a valid moisture reading.").
Proof.
  split.
  - apply (proj1 (get_soil_status_payload workstation degraded_heap (wrapper "adafruitstemma" 0))
             (VInt (-1)) (noted 0 m_get_soil_saturation degraded_heap)
             (VInt (-1)) (noted 0 m_get_air_temp (noted 0 m_get_soil_saturation degraded_heap)));
      reflexivity.
  - erewrite (proj1 (proj2 (proj2 (get_soil_status_payload pi_sensor_lost ready_heap
                                     (wrapper "adafruitstemma" 0)))));
      reflexivity.
Defined.

(** ** The instances the services hold *)

Lemma keeps_heap_bind {A B : Type} (m : M A) (f : A → M B) :
  keeps_heap m → (∀ a, keeps_heap (f a)) → keeps_heap (m ≫= f).
Proof.
  intros Hm Hf pf st. unfold mbind, M_bind.
  specialize (Hm pf st). destruct (m pf st) as [[a|e] st1]; cbn in *.
  - now rewrite Hf.
  - exact Hm.
Qed.

Lemma keeps_heap_ret {A : Type} (a : A) : keeps_heap (mret a).
Proof. now intros pf st. Qed.

Lemma keeps_heap_attempt {A : Type} (m : M A) : keeps_heap m → keeps_heap (attempt m).
Proof.
  intros Hm pf st. unfold attempt. specialize (Hm pf st).
  now destruct (m pf st) as [r st1].
Qed.

Lemma keeps_heap_time : keeps_heap time.time.
Proof. now intros pf st. Qed.

Lemma keeps_heap_get_soil_status sm : keeps_heap (SoilService.get_soil_status sm).
Proof.
  unfold SoilService.get_soil_status, SoilMonitor.get_soil_saturation,
    SoilMonitor.get_air_temp.
  apply keeps_heap_bind; [intros pf st; apply interface_methods_keep_heap|].
  intros v1. apply keeps_heap_bind; [intros pf st; apply interface_methods_keep_heap|].
  intros v2. apply keeps_heap_ret.
Qed.

Lemma keeps_heap_get_health hs : keeps_heap (HealthService.get_health hs).
Proof.
  unfold HealthService.get_health, HealthService._get_total_app_uptime_seconds,
    HealthService._get_current_soil_monitor, SoilMonitor.get_name.
  apply keeps_heap_bind.
  - apply keeps_heap_bind; [apply keeps_heap_time|]. now intros now pf st.
  - intros u. apply keeps_heap_bind; [intros pf st; apply interface_methods_keep_heap|].
    intros n. apply keeps_heap_ret.
Qed.

Lemma keeps_heap_serve g rs : keeps_heap (app.serve g rs).
Proof.
  induction rs as [|r rs IH]; cbn [app.serve].
  - apply keeps_heap_ret.
  - apply keeps_heap_bind.
    + apply keeps_heap_attempt. destruct r; cbn.
      * apply keeps_heap_get_soil_status.
      * apply keeps_heap_get_health.
    + intros d. apply keeps_heap_bind; [exact IH|]. intros ds. apply keeps_heap_ret.
Qed.

Lemma SoilMonitor_init_ok pf st sm st' :
  SoilMonitor.__init__ pf st = (Ok sm, st') →
  SoilMonitor._soil_monitor sm = length (heap st)
  ∧ clock_pos st' = clock_pos st
  ∧ ∃ o, heap st' = heap st ++ [o]
         ∧ is_mocked o = bool_decide (selected_key pf = "mocked").
Proof.
  rewrite SoilMonitor_init_with_key. cbn zeta. fold (selected_key pf).
  unfold SoilMonitorFactory.get_soil_monitor. rewrite factory_lookup.
  destruct (decide (selected_key pf = "mocked")) as [->|Hm].
  - cbn. intros [= <- <-]. split; [reflexivity|]. split; [reflexivity|]. now exists Mocked_obj.
  - rewrite (bool_decide_eq_false_2 _ Hm).
    destruct (decide (selected_key pf = "adafruitstemma")) as [->|Ha]; [|discriminate].
    cbn [truthy negb call].
    destruct (driver_modules_loaded st) eqn:Hl.
    + rewrite (adafruit_init_modules_loaded _ _ Hl).
      destruct (drv_I2C pf) as [b|e]; [|discriminate].
      destruct (drv_Seesaw pf b 54) as [dev|e]; [|discriminate].
      intros [= <- <-]. split; [reflexivity|]. split; [reflexivity|]. now eexists.
    + destruct (adafruit_init_modules_missing pf st Hl) as (st1 & -> & Hh & Hc).
      intros [= <- <-]. split; [reflexivity|]. split; [exact Hc|].
      eexists. split; [exact Hh | reflexivity].
Qed.

Lemma SoilMonitor_init_name pf st sm st' :
  SoilMonitor.__init__ pf st = (Ok sm, st') →
  SoilMonitor._soil_monitor_name sm = selected_key pf.
Proof.
  rewrite SoilMonitor_init_with_key. cbn zeta. fold (selected_key pf).
  destruct (SoilMonitorFactory.get_soil_monitor _ _ pf st) as [[b|e] s1]; [|discriminate].
  now intros [= <- <-].
Qed.

(** The instance a [HealthService] holds is made by its own constructor,
    at the next free address. *)
Lemma HealthService_init_backend pf st hs st' :
  HealthService.__init__ pf st = (Ok hs, st') →
  health_backend_of hs = length (heap st)
  ∧ SoilMonitor._soil_monitor_name (HealthService._soil_monitor hs) = selected_key pf
  ∧ ∃ o, heap st' = heap st ++ [o]
         ∧ is_mocked o = bool_decide (selected_key pf = "mocked").
Proof.
  unfold HealthService.__init__. intros H.
  apply bind_inv_ok in H as (t0 & s1 & Ht & H).
  apply bind_inv_ok in H as (sm & s2 & Hsm & H).
  injection H as <- <-. injection Ht as <- <-.
  pose proof (SoilMonitor_init_name _ _ _ _ Hsm) as Hname.
  apply SoilMonitor_init_ok in Hsm as (E & _ & o & Hh & Hm).
  unfold health_backend_of. cbn. split; [exact E|]. split; [exact Hname|].
  exists o. split; [exact Hh | exact Hm].
Qed.

(** C3 (as stated, refuted): once line 3 of [services/soil.py] has made
    the module global [soil_monitor] and a [HealthService] has been
    constructed, the status service and the health service do not read
    from one and the same instance. *)
Lemma services_hold_distinct_backends :
  ¬ (∀ pf st sm st1 hs st2,
       SoilMonitor.__init__ pf st = (Ok sm, st1) →
       HealthService.__init__ pf st1 = (Ok hs, st2) →
       SoilMonitor._soil_monitor sm = health_backend_of hs).
Proof.
  intros H.
  specialize (H workstation initial (wrapper "mocked" 0)
                (set_heap (λ h, h ++ [Mocked_obj]) initial)
                mocked_service_1
                (set_heap (λ h, h ++ [Mocked_obj])
                   (set_clock_pos S (set_heap (λ h, h ++ [Mocked_obj]) initial)))
                eq_refl eq_refl).
  discriminate H.
Qed.

(** C3 (amended): the process holds two back-end instances, one made by
    the [SoilMonitor()] of line 3 of [services/soil.py] and read by the
    status service, one made by the [SoilMonitor()] of
    [HealthService.__init__], whatever was constructed in between, and
    read by the health service; they are distinct objects of the same
    class, each made once, from the same key, and neither a call of
    [get_soil_status] or [get_health] nor a run of requests replaces or
    changes either of them. *)
Theorem services_two_backends pf st sm st1 st2 hs st3 :
  SoilMonitor.__init__ pf st = (Ok sm, st1) →
  heap st1 `prefix_of` heap st2 →
  HealthService.__init__ pf st2 = (Ok hs, st3) →
  SoilMonitor._soil_monitor sm ≠ health_backend_of hs
  ∧ SoilMonitor._soil_monitor_name sm
    = SoilMonitor._soil_monitor_name (HealthService._soil_monitor hs)
  ∧ (∃ o1 o2,
       heap st1 = heap st ++ [o1]
       ∧ heap st3 = heap st2 ++ [o2]
       ∧ heap st3 !! SoilMonitor._soil_monitor sm = Some o1
       ∧ heap st3 !! health_backend_of hs = Some o2
       ∧ is_mocked o1 = is_mocked o2)
  ∧ (∀ s, heap (snd (SoilService.get_soil_status sm pf s)) = heap s
          ∧ heap (snd (HealthService.get_health hs pf s)) = heap s)
  ∧ ∀ rs s,
      heap (snd (app.serve {| app.soil_monitor := sm; app.health_service := hs |} rs pf s))
      = heap s.
Proof.
  intros Hsm Hpre Hhs.
  pose proof (SoilMonitor_init_name _ _ _ _ Hsm) as Hn1.
  apply SoilMonitor_init_ok in Hsm as (E1 & _ & o1 & Hh1 & Hm1).
  apply HealthService_init_backend in Hhs as (E2 & Hn2 & o2 & Hh2 & Hm2).
  assert (Hlen : length (heap st) < length (heap st2)).
  { apply prefix_length in Hpre. rewrite Hh1, length_app in Hpre. cbn in Hpre. lia. }
  split; [rewrite E1, E2; lia|]. split; [now rewrite Hn1, Hn2|]. split; [|split].
  - exists o1, o2. split; [exact Hh1|]. split; [exact Hh2|]. split; [|split].
    + rewrite E1, Hh2. apply lookup_app_l_Some.
      apply (prefix_lookup_Some (heap st1)); [|exact Hpre].
      rewrite Hh1, lookup_app_r by lia. now rewrite Nat.sub_diag.
    + rewrite E2, Hh2, lookup_app_r by lia. now rewrite Nat.sub_diag.
    + now rewrite Hm1, Hm2.
  - intros s. split; [apply keeps_heap_get_soil_status | apply keeps_heap_get_health].
  - intros rs s. apply keeps_heap_serve.
Qed.

Lemma services_two_backends_witness :
  SoilMonitor._soil_monitor (wrapper "mocked" 0) ≠ health_backend_of mocked_service_1
  ∧ SoilMonitor._soil_monitor_name (wrapper "mocked" 0)
    = SoilMonitor._soil_monitor_name (HealthService._soil_monitor mocked_service_1)
  ∧ (∃ o1 o2,
       heap (set_heap (λ h, h ++ [Mocked_obj]) initial) = heap initial ++ [o1]
       ∧ heap (snd (HealthService.__init__ workstation (set_heap (λ h, h ++ [Mocked_obj]) initial)))
         = heap (set_heap (λ h, h ++ [Mocked_obj]) initial) ++ [o2]
       ∧ heap (snd (HealthService.__init__ workstation (set_heap (λ h, h ++ [Mocked_obj]) initial)))
           !! SoilMonitor._soil_monitor (wrapper "mocked" 0) = Some o1
       ∧ heap (snd (HealthService.__init__ workstation (set_heap (λ h, h ++ [Mocked_obj]) initial)))
           !! health_backend_of mocked_service_1 = Some o2
       ∧ is_mocked o1 = is_mocked o2)
  ∧ (∀ s, heap (snd (SoilService.get_soil_status (wrapper "mocked" 0) workstation s)) = heap s
          ∧ heap (snd (HealthService.get_health mocked_service_1 workstation s)) = heap s)
  ∧ ∀ rs s,
      heap (snd (app.serve {| app.soil_monitor := wrapper "mocked" 0;
                              app.health_service := mocked_service_1 |} rs workstation s))
      = heap s.
Proof.
  apply (services_two_backends workstation initial (wrapper "mocked" 0)
           (set_heap (λ h, h ++ [Mocked_obj]) initial)
           (set_heap (λ h, h ++ [Mocked_obj]) initial)
           mocked_service_1
           (snd (HealthService.__init__ workstation (set_heap (λ h, h ++ [Mocked_obj]) initial)))).
  - reflexivity.
  - reflexivity.
  - reflexivity.
Defined.

(** ** The health service *)

(** [get_health], step by step: one reading of the clock, then [get_name]
    on the back end. *)
Lemma get_health_eq hs pf st :
  HealthService.get_health hs pf st =
    let st1 := set_clock_pos S st in
    match Float.to_int (Float.sub (clock pf (clock_pos st)) (HealthService._start_time hs)) with
    | Raise e => (Raise e, st1)
    | Ok uptime =>
        match heap st !! health_backend_of hs with
        | None => (Raise (AttributeError "dangling reference"), st1)
        | Some o =>
            (Ok {[ "uptime" := VInt uptime; "soilMonitor" := VStr (backend_name o) ]},
             set_calls (λ c, c ++ [(health_backend_of hs, m_get_name)]) st1)
        end
    end.
Proof.
  unfold HealthService.get_health, HealthService._get_total_app_uptime_seconds,
    HealthService._get_current_soil_monitor, SoilMonitor.get_name,
    SoilMonitorInterface.get_name, time.time, health_backend_of. run.
  destruct (Float.to_int _) as [u|e]; [|reflexivity]. run.
  destruct (heap st !! _) as [[|l ss]|]; reflexivity.
Qed.

(** C10: [get_health] calls neither [get_soil_saturation] nor
    [get_air_temp]: it records a call of [get_name] at most, draws nothing
    from the random source, reads nothing from the driver and prints
    nothing; and two executions that agree on the reading of the clock and
    on the back end in place return the same payload, whatever the sensor
    and the random source hold. *)
Theorem get_health_ignores_readings hs pf1 st1 pf2 st2 :
  clock pf1 (clock_pos st1) = clock pf2 (clock_pos st2) →
  heap st1 !! health_backend_of hs = heap st2 !! health_backend_of hs →
  fst (HealthService.get_health hs pf1 st1) = fst (HealthService.get_health hs pf2 st2)
  ∧ (∀ c, c ∈ calls (snd (HealthService.get_health hs pf1 st1)) →
          c ∈ calls st1 ∨ c = (health_backend_of hs, m_get_name))
  ∧ rng_pos (snd (HealthService.get_health hs pf1 st1)) = rng_pos st1
  ∧ hw_pos (snd (HealthService.get_health hs pf1 st1)) = hw_pos st1
  ∧ stdout (snd (HealthService.get_health hs pf1 st1)) = stdout st1.
Proof.
  intros Hclock Hheap. rewrite !get_health_eq. cbn zeta.
  rewrite Hclock, Hheap.
  destruct (Float.to_int _) as [u|e].
  - destruct (heap st2 !! health_backend_of hs) as [o|]; cbn.
    + repeat split; try reflexivity.
      intros c [Hc | Hc%list_elem_of_singleton]%elem_of_app; [now left | now right].
    + repeat split; try reflexivity. intros c Hc. now left.
  - cbn. repeat split; try reflexivity. intros c Hc. now left.
Qed.

Lemma get_health_ignores_readings_witness :
  fst (HealthService.get_health mocked_service workstation mocked_heap)
  = fst (HealthService.get_health mocked_service other_dice (set_rng_pos (λ _, 3) mocked_heap))
  ∧ (∀ c, c ∈ calls (snd (HealthService.get_health mocked_service workstation mocked_heap)) →
          c ∈ calls mocked_heap ∨ c = (health_backend_of mocked_service, m_get_name))
  ∧ rng_pos (snd (HealthService.get_health mocked_service workstation mocked_heap)) = rng_pos mocked_heap
  ∧ hw_pos (snd (HealthService.get_health mocked_service workstation mocked_heap)) = hw_pos mocked_heap
  ∧ stdout (snd (HealthService.get_health mocked_service workstation mocked_heap)) = stdout mocked_heap.
Proof.
  apply (get_health_ignores_readings mocked_service workstation mocked_heap
           other_dice (set_rng_pos (λ _, 3) mocked_heap)); reflexivity.
Defined.

(** ** The simulated back end: saturation *)

Lemma mocked_saturation_eq pf st self :
  _MockedSoilMonitor.get_soil_saturation self pf st =
    (Ok (VInt (entropy pf (rng_pos st) mod 102)),
     set_rng_pos S (set_calls (λ c, c ++ [(self, m_get_soil_saturation)]) st)).
Proof. reflexivity. Qed.

(** What the code does return: an integer from 0 to 101, both included,
    and each of them for some draw. *)
Lemma mocked_saturation_range pf st self :
  ∃ n, fst (_MockedSoilMonitor.get_soil_saturation self pf st) = Ok (VInt n)
       ∧ (0 ≤ n ≤ 101)%Z.
Proof.
  rewrite mocked_saturation_eq. eexists. split; [reflexivity|].
  pose proof (Z.mod_pos_bound (entropy pf (rng_pos st)) 102). lia.
Qed.

Lemma mocked_saturation_onto (n : Z) st self :
  (0 ≤ n ≤ 101)%Z →
  fst (_MockedSoilMonitor.get_soil_saturation self (with_entropy (λ _, n) workstation) st)
  = Ok (VInt n).
Proof.
  intros H. rewrite mocked_saturation_eq. cbn. now rewrite Z.mod_small by lia.
Qed.

(** C2 (the code at a draw that selects the top of the range):
    [random.randint(0, 101)] includes 101, so the simulated back end
    returns a saturation of 101, outside [0, 101). *)
Theorem mocked_saturation_reaches_101 :
  fst (_MockedSoilMonitor.get_soil_saturation 0 other_dice mocked_heap) = Ok (VInt 101)
  ∧ ¬ (0 ≤ 101 < 101)%Z.
Proof. split; [reflexivity | lia]. Qed.

(** ** The simulated back end: temperature *)

(** C9: for every draw of the random source, [get_air_temp] of the
    simulated back end returns a float [x] with [0 <= x < 50]:
    [50.0 * random()] never rounds up to [50.0]. *)
Theorem mocked_air_temp_range pf st self :
  ∃ x, _MockedSoilMonitor.get_air_temp self pf st =
         (Ok (VFloat x), set_rng_pos S (set_calls (λ c, c ++ [(self, m_get_air_temp)]) st))
       ∧ Float.leb (Float.of_int 0) x = true
       ∧ Float.ltb x (Float.of_int 50) = true.
Proof.
  eexists. split; [reflexivity|].
  apply uniform_0_50. apply Z.mod_pos_bound. reflexivity.
Qed.

(** ** Uptime *)

Lemma uptime_eq hs pf s :
  HealthService._get_total_app_uptime_seconds hs pf s =
    (Float.to_int (Float.sub (clock pf (clock_pos s)) (HealthService._start_time hs)),
     set_clock_pos S s).
Proof. reflexivity. Qed.





(** * Further properties of the code *)

(** ** More on the factory *)

(** X1: what was registered last under a key is what a lookup of that key
    finds: a class is called, a registered object that is false in a
    condition raises [ValueError] with the key; an earlier registration
    under the same key is forgotten. *)
Theorem register_then_get (f : SoilMonitorFactory.t) (key : string) (r r0 : registered) pf st :
  SoilMonitorFactory.get_soil_monitor (SoilMonitorFactory.register_soil_monitor f key r) key pf st
  = (if truthy r then call r pf st else (Raise (ValueError key), st))
  ∧ SoilMonitorFactory.register_soil_monitor
      (SoilMonitorFactory.register_soil_monitor f key r0) key r
    = SoilMonitorFactory.register_soil_monitor f key r.
Proof.
  split.
  - unfold SoilMonitorFactory.get_soil_monitor, SoilMonitorFactory.register_soil_monitor.
    cbn [SoilMonitorFactory._soil_monitors]. rewrite lookup_insert_eq.
    now destruct r.
  - unfold SoilMonitorFactory.register_soil_monitor. cbn [SoilMonitorFactory._soil_monitors].
    now rewrite insert_insert_eq.
Qed.

(** X2: a registration changes the lookup of no other key. *)
Theorem register_other_key (f : SoilMonitorFactory.t) (key key' : string) (r : registered) pf st :
  key ≠ key' →
  SoilMonitorFactory.get_soil_monitor (SoilMonitorFactory.register_soil_monitor f key r) key' pf st
  = SoilMonitorFactory.get_soil_monitor f key' pf st.
Proof.
  intros Hne. unfold SoilMonitorFactory.get_soil_monitor, SoilMonitorFactory.register_soil_monitor.
  cbn [SoilMonitorFactory._soil_monitors]. now rewrite lookup_insert_ne.
Qed.

Lemma register_other_key_witness :
  SoilMonitorFactory.get_soil_monitor
    (SoilMonitorFactory.register_soil_monitor _soil_monitor_factory "sim" class_MockedSoilMonitor)
    "adafruitstemma" workstation initial
  = SoilMonitorFactory.get_soil_monitor _soil_monitor_factory "adafruitstemma" workstation initial.
Proof.
  apply (register_other_key _soil_monitor_factory "sim" "adafruitstemma"). discriminate.
Defined.

(** What one call of a registered class leaves: a new instance of that
    class at the next address, every older instance where it was. *)
Lemma call_fresh (r : registered) pf st l st' :
  call r pf st = (Ok l, st') →
  l = length (heap st) ∧ ∃ o, heap st' = heap st ++ [o] ∧ class_of o = r.
Proof.
  destruct r; cbn [call].
  - destruct (driver_modules_loaded st) eqn:Hl.
    + rewrite (adafruit_init_modules_loaded _ _ Hl).
      destruct (drv_I2C pf) as [b|e]; [|discriminate].
      destruct (drv_Seesaw pf b 54) as [dev|e]; [|discriminate].
      intros [= <- <-]. split; [reflexivity|]. now eexists.
    + destruct (adafruit_init_modules_missing pf st Hl) as (st1 & -> & Hh & _).
      intros [= <- <-]. split; [reflexivity|]. eexists. split; [exact Hh|reflexivity].
  - intros [= <- <-]. split; [reflexivity|]. now eexists.
  - discriminate.
Qed.

Lemma get_soil_monitor_ok (f : SoilMonitorFactory.t) (key : string) pf st l st' :
  SoilMonitorFactory.get_soil_monitor f key pf st = (Ok l, st') →
  l = length (heap st)
  ∧ ∃ o, heap st' = heap st ++ [o]
         ∧ SoilMonitorFactory._soil_monitors f !! key = Some (class_of o).
Proof.
  unfold SoilMonitorFactory.get_soil_monitor.
  destruct (SoilMonitorFactory._soil_monitors f !! key) as [r|]; [|discriminate].
  destruct (truthy r); cbn [negb]; [|discriminate].
  intros H. apply call_fresh in H as (-> & o & Hh & <-). split; [reflexivity|]. now exists o.
Qed.

(** X3: a lookup that returns gives a fresh instance: its address was
    free, the instance is of the class registered under the key, and every
    instance made before is still at its address, unchanged. *)
Theorem get_soil_monitor_fresh (f : SoilMonitorFactory.t) (key : string) pf st l st' :
  SoilMonitorFactory.get_soil_monitor f key pf st = (Ok l, st') →
  heap st !! l = None
  ∧ (∃ o, heap st' !! l = Some o
          ∧ SoilMonitorFactory._soil_monitors f !! key = Some (class_of o))
  ∧ ∀ l0 o0, heap st !! l0 = Some o0 → heap st' !! l0 = Some o0.
Proof.
  intros H. apply get_soil_monitor_ok in H as (-> & o & Hh & Hc).
  split; [apply lookup_ge_None_2; lia|]. split.
  - exists o. split; [|exact Hc]. rewrite Hh, lookup_app_r by lia.
    now rewrite Nat.sub_diag.
  - intros l0 o0 H0. rewrite Hh. now apply lookup_app_l_Some.
Qed.

Lemma get_soil_monitor_fresh_witness :
  heap initial !! 0 = None
  ∧ (∃ o, heap (set_heap (λ h, h ++ [Mocked_obj]) initial) !! 0 = Some o
          ∧ SoilMonitorFactory._soil_monitors _soil_monitor_factory !! "mocked" = Some (class_of o))
  ∧ ∀ l0 o0, heap initial !! l0 = Some o0 →
             heap (set_heap (λ h, h ++ [Mocked_obj]) initial) !! l0 = Some o0.
Proof.
  apply (get_soil_monitor_fresh _soil_monitor_factory "mocked" workstation initial). reflexivity.
Defined.

(** X4: two lookups in a row, of any keys of any factories, never return
    the same instance. *)
Theorem get_soil_monitor_twice (f1 f2 : SoilMonitorFactory.t) (k1 k2 : string) pf st l1 st1 l2 st2 :
  SoilMonitorFactory.get_soil_monitor f1 k1 pf st = (Ok l1, st1) →
  SoilMonitorFactory.get_soil_monitor f2 k2 pf st1 = (Ok l2, st2) →
  l1 ≠ l2 ∧ heap st2 !! l1 = heap st1 !! l1 ∧ is_Some (heap st2 !! l1) ∧ is_Some (heap st2 !! l2).
Proof.
  intros H1 H2.
  apply get_soil_monitor_ok in H1 as (-> & o1 & Hh1 & _).
  apply get_soil_monitor_ok in H2 as (-> & o2 & Hh2 & _).
  rewrite Hh2, Hh1, !length_app. cbn [length].
  split; [lia|]. split; [|split].
  - rewrite lookup_app_l; [reflexivity|]. rewrite length_app. cbn. lia.
  - exists o1. rewrite <- app_assoc. rewrite lookup_app_r by lia. now rewrite Nat.sub_diag.
  - exists o2. rewrite lookup_app_r by (rewrite length_app; cbn; lia).
    rewrite length_app. cbn.
    now replace (length (heap st) + 1 - (length (heap st) + 1)) with 0 by lia.
Qed.

Lemma get_soil_monitor_twice_witness :
  0 ≠ 1
  ∧ heap (set_heap (λ h, h ++ [Mocked_obj]) (set_heap (λ h, h ++ [Mocked_obj]) initial)) !! 0
    = heap (set_heap (λ h, h ++ [Mocked_obj]) initial) !! 0
  ∧ is_Some (heap (set_heap (λ h, h ++ [Mocked_obj]) (set_heap (λ h, h ++ [Mocked_obj]) initial)) !! 0)
  ∧ is_Some (heap (set_heap (λ h, h ++ [Mocked_obj]) (set_heap (λ h, h ++ [Mocked_obj]) initial)) !! 1).
Proof.
  apply (get_soil_monitor_twice _soil_monitor_factory one_mock "mocked" "sim" workstation initial
           0 (set_heap (λ h, h ++ [Mocked_obj]) initial)
           1 (set_heap (λ h, h ++ [Mocked_obj]) (set_heap (λ h, h ++ [Mocked_obj]) initial)));
    reflexivity.
Defined.

(** ** More on the hardware back end *)

(** X5: an instance that construction returns has its [loaded] flag true
    exactly when both driver modules were in [sys.modules], and has the
    attribute [ss] exactly then. *)
Theorem adafruit_init_flag pf st l st' :
  _AdafruitStemmaSoilMonitor.__init__ pf st = (Ok l, st') →
  ∃ ss, heap st' !! l = Some (AdafruitStemma_obj (driver_modules_loaded st) ss)
        ∧ (is_Some ss ↔ driver_modules_loaded st = true).
Proof.
  destruct (driver_modules_loaded st) eqn:Hl.
  - rewrite (adafruit_init_modules_loaded _ _ Hl).
    destruct (drv_I2C pf) as [b|e]; [|discriminate].
    destruct (drv_Seesaw pf b 54) as [dev|e]; [|discriminate].
    intros [= <- <-]. exists (Some dev). cbn. split.
    + rewrite lookup_app_r by lia. now rewrite Nat.sub_diag.
    + split; [reflexivity | intros _; now eexists].
  - destruct (adafruit_init_modules_missing pf st Hl) as (st1 & -> & Hh & _).
    intros [= <- <-]. exists None. split.
    + rewrite Hh, lookup_app_r by lia. now rewrite Nat.sub_diag.
    + split; [intros [? [=]] | discriminate].
Qed.

Lemma adafruit_init_flag_witness :
  ∃ ss, heap (set_heap (λ h, h ++ [AdafruitStemma_obj true (Some {| ss_bus := I2C_bus; ss_addr := 0x36 |})])
                drivers_imported) !! 0
        = Some (AdafruitStemma_obj (driver_modules_loaded drivers_imported) ss)
        ∧ (is_Some ss ↔ driver_modules_loaded drivers_imported = true).
Proof.
  apply (adafruit_init_flag pi_ready drivers_imported 0). reflexivity.
Defined.

(** X6: a ready instance hands on what the driver returns: the raw
    moisture reading as it is, the temperature through [round(_, 1)], an
    exception as it is; each read is one call of the driver and prints
    nothing. *)
Theorem adafruit_ready_reads pf st self dev :
  heap st !! self = Some (AdafruitStemma_obj true (Some dev)) →
  _AdafruitStemmaSoilMonitor.get_soil_saturation self pf st
  = (match drv_moisture_read pf (hw_pos st) with
     | Ok v => Ok (VInt v)
     | Raise e => Raise e
     end,
     set_hw_pos S (set_calls (λ c, c ++ [(self, m_get_soil_saturation)]) st))
  ∧ _AdafruitStemmaSoilMonitor.get_air_temp self pf st
    = (match drv_get_temp pf (hw_pos st) with
       | Ok t => Ok (VFloat (py_round pf t 1))
       | Raise e => Raise e
       end,
       set_hw_pos S (set_calls (λ c, c ++ [(self, m_get_air_temp)]) st)).
Proof.
  intros H. unfold _AdafruitStemmaSoilMonitor.get_soil_saturation,
    _AdafruitStemmaSoilMonitor.get_air_temp, _AdafruitStemmaSoilMonitor.loaded,
    _AdafruitStemmaSoilMonitor.ss, Seesaw.moisture_read, Seesaw.get_temp, round.
  run. rewrite H. run. rewrite H. run. split.
  - now destruct (drv_moisture_read pf (hw_pos st)).
  - now destruct (drv_get_temp pf (hw_pos st)).
Qed.

Lemma adafruit_ready_reads_witness :
  _AdafruitStemmaSoilMonitor.get_soil_saturation 0 pi_ready ready_heap
  = (Ok (VInt 1015),
     set_hw_pos S (set_calls (λ c, c ++ [(0, m_get_soil_saturation)]) ready_heap))
  ∧ _AdafruitStemmaSoilMonitor.get_air_temp 0 pi_ready ready_heap
    = (Ok (VFloat (Float.ldexp 6023622370773402 (-48))),
       set_hw_pos S (set_calls (λ c, c ++ [(0, m_get_air_temp)]) ready_heap)).
Proof.
  apply (adafruit_ready_reads pi_ready ready_heap 0 {| ss_bus := I2C_bus; ss_addr := 0x36 |}).
  reflexivity.
Defined.

(** ** More on the guarded imports *)

Lemma import_time_ok pf st :
  import_outcome pf "time" = None →
  import "time" pf st = (Ok tt, set_sys_modules (λ ms, ms ∪ {[ "time" ]}) st).
Proof.
  intros Ht. unfold import. run.
  destruct (bool_decide ("time" ∈ sys_modules st)) eqn:E; run.
  - apply bool_decide_eq_true_1 in E.
    assert (Hms : sys_modules st ∪ {[ "time" ]} = sys_modules st).
    { rewrite (comm_L (∪)). apply subseteq_union_1_L. now apply singleton_subseteq_l. }
    destruct st as [ms out h r c hw cl]. unfold set_sys_modules. cbn in *.
    now rewrite Hms.
  - now rewrite Ht.
Qed.

Lemma import_raises pf st (name : string) e :
  name ∉ sys_modules st → import_outcome pf name = Some e →
  import name pf st = (Raise e, st).
Proof.
  intros Hn Hi. unfold import. run.
  rewrite (bool_decide_eq_false_2 _ Hn). run. now rewrite Hi.
Qed.

Lemma board_not_in_with_time (ms : gset string) : "board" ∉ ms → "board" ∉ ms ∪ {[ "time" ]}.
Proof.
  intros H. rewrite elem_of_union, elem_of_singleton. intros [?|?]; [done|discriminate].
Qed.

(** X7: when [import board] raises [NotImplementedError], the module body
    goes on: the note of line 13 is printed, [time] is the only module
    loaded, and the hardware back end, if constructed, will not be ready. *)
Theorem import_guard_unsupported pf st :
  "board" ∉ sys_modules st →
  import_outcome pf "time" = None →
  import_outcome pf "board" = Some NotImplementedError →
  import_guard pf st
  = (Ok tt, set_stdout (λ out, out ++ ["Unable to load adafruit components"])
              (set_sys_modules (λ ms, ms ∪ {[ "time" ]}) st)).
Proof.
  intros Hb Ht Hi. unfold import_guard, try_except.
  rewrite (bind_ok _ _ _ _ _ _ (import_time_ok pf st Ht)).
  rewrite (bind_raise _ _ _ _ _ _
             (import_raises pf (set_sys_modules (λ ms, ms ∪ {[ "time" ]}) st) "board" _
                (board_not_in_with_time _ Hb) Hi)).
  reflexivity.
Qed.

Lemma import_guard_unsupported_witness :
  import_guard workstation initial
  = (Ok tt, set_stdout (λ out, out ++ ["Unable to load adafruit components"])
              (set_sys_modules (λ ms, ms ∪ {[ "time" ]}) initial)).
Proof.
  apply import_guard_unsupported; [| reflexivity | reflexivity].
  apply not_elem_of_empty.
Defined.

(** X8: any other exception of [import board] is not caught: it leaves
    the guarded imports, and with them the module body of
    [hardware/soil_monitor.py] and that of [services/soil.py], which
    imports it, before any back end is selected, whatever the
    configuration. *)
Theorem import_guard_other_error pf st e :
  "board" ∉ sys_modules st →
  import_outcome pf "time" = None →
  import_outcome pf "board" = Some e →
  e ≠ NotImplementedError →
  import_guard pf st = (Raise e, set_sys_modules (λ ms, ms ∪ {[ "time" ]}) st)
  ∧ ∀ package, 2 ≤ length package →
      services_soil package pf st = (Raise e, set_sys_modules (λ ms, ms ∪ {[ "time" ]}) st).
Proof.
  intros Hb Ht Hi Hne.
  assert (Hg : import_guard pf st = (Raise e, set_sys_modules (λ ms, ms ∪ {[ "time" ]}) st)).
  { unfold import_guard, try_except.
    rewrite (bind_ok _ _ _ _ _ _ (import_time_ok pf st Ht)).
    rewrite (bind_raise _ _ _ _ _ _
               (import_raises pf (set_sys_modules (λ ms, ms ∪ {[ "time" ]}) st) "board" _
                  (board_not_in_with_time _ Hb) Hi)).
    now destruct e. }
  split; [exact Hg|].
  intros package Hp. rewrite (services_soil_resolved _ _ _ Hp).
  now apply bind_raise.
Qed.

Lemma import_guard_other_error_witness :
  import_guard no_board_package initial
  = (Raise (ModuleNotFoundError "board"), set_sys_modules (λ ms, ms ∪ {[ "time" ]}) initial)
  ∧ services_soil ["src"; "services"] no_board_package initial
    = (Raise (ModuleNotFoundError "board"), set_sys_modules (λ ms, ms ∪ {[ "time" ]}) initial).
Proof.
  assert (H := import_guard_other_error no_board_package initial (ModuleNotFoundError "board")
                 (not_elem_of_empty _) eq_refl eq_refl ltac:(discriminate)).
  split; [apply H | apply H; cbn; lia].
Defined.

(** ** The constructions, step by step *)

Lemma selected_key_env pf (key : string) :
  environ pf !! "soil_monitor" = Some key → key ≠ "" → selected_key pf = key.
Proof.
  intros H Hne. unfold selected_key. rewrite H. cbn.
  now rewrite (bool_decide_eq_false_2 _ Hne).
Qed.

Lemma SoilMonitor_init_mocked pf st :
  selected_key pf = "mocked" →
  SoilMonitor.__init__ pf st
  = (Ok (wrapper "mocked" (length (heap st))), set_heap (λ h, h ++ [Mocked_obj]) st).
Proof.
  intros H. rewrite SoilMonitor_init_with_key. cbn zeta. fold (selected_key pf).
  now rewrite H.
Qed.

Lemma SoilMonitor_init_adafruit pf st :
  selected_key pf = "adafruitstemma" →
  SoilMonitor.__init__ pf st
  = match _AdafruitStemmaSoilMonitor.__init__ pf st with
    | (Ok backend, st') => (Ok (wrapper "adafruitstemma" backend), st')
    | (Raise e, st') => (Raise e, st')
    end.
Proof.
  intros H. rewrite SoilMonitor_init_with_key. cbn zeta. fold (selected_key pf).
  now rewrite H.
Qed.

(** Construction without the driver modules changes the heap and the
    output only. *)
Lemma adafruit_init_missing_state pf st :
  driver_modules_loaded st = false →
  ∃ st', _AdafruitStemmaSoilMonitor.__init__ pf st = (Ok (length (heap st)), st')
         ∧ heap st' = heap st ++ [AdafruitStemma_obj false None]
         ∧ sys_modules st' = sys_modules st
         ∧ rng_pos st' = rng_pos st ∧ hw_pos st' = hw_pos st
         ∧ clock_pos st' = clock_pos st ∧ calls st' = calls st.
Proof.
  unfold driver_modules_loaded, _AdafruitStemmaSoilMonitor.__init__.
  destruct (bool_decide ("board" ∈ sys_modules st)) eqn:Hb;
    destruct (bool_decide ("adafruit_seesaw.seesaw" ∈ sys_modules st)) eqn:Hs;
    intros H; try discriminate;
    repeat (run; rewrite ?Hb, ?Hs); eexists; (split; [reflexivity | repeat split]).
Qed.

Lemma services_soil_ok package pf st st1 :
  2 ≤ length package →
  import_guard pf st = (Ok tt, st1) →
  services_soil package pf st = SoilMonitor.__init__ pf st1.
Proof.
  intros Hp Hg. rewrite (services_soil_resolved _ _ _ Hp).
  now rewrite (bind_ok _ _ _ _ _ _ Hg).
Qed.

Lemma HealthService_init_eq pf st sm st' :
  SoilMonitor.__init__ pf (set_clock_pos S st) = (Ok sm, st') →
  HealthService.__init__ pf st
  = (Ok {| HealthService._start_time := clock pf (clock_pos st);
           HealthService._soil_monitor := sm |}, st').
Proof.
  intros H. unfold HealthService.__init__.
  assert (Ht : time.time pf st = (Ok (clock pf (clock_pos st)), set_clock_pos S st))
    by reflexivity.
  rewrite (bind_ok _ _ _ _ _ _ Ht), (bind_ok _ _ _ _ _ _ H). reflexivity.
Qed.

(** An instance stays at its address in every heap that extends the one
    it was made in. *)
Lemma prefix_lookup_last {A : Type} (l : list A) (x : A) (l' : list A) :
  (l ++ [x]) `prefix_of` l' → l' !! length l = Some x.
Proof.
  intros H. apply (prefix_lookup_Some (l ++ [x])); [|exact H].
  rewrite lookup_app_r by lia. now rewrite Nat.sub_diag.
Qed.

(** ** The status on each back end *)

Lemma status_mocked pf s (key : string) b :
  heap s !! b = Some Mocked_obj →
  ∃ n x,
    SoilService.get_soil_status (wrapper key b) pf s
    = (Ok {[ "saturation" := VInt n; "temp" := VFloat x ]},
       set_rng_pos S (set_calls (λ c, c ++ [(b, m_get_air_temp)])
         (set_rng_pos S (set_calls (λ c, c ++ [(b, m_get_soil_saturation)]) s))))
    ∧ (0 ≤ n ≤ 101)%Z
    ∧ Float.leb (Float.of_int 0) x = true ∧ Float.ltb x (Float.of_int 50) = true.
Proof.
  intros Hb.
  set (s1 := set_rng_pos S (set_calls (λ c, c ++ [(b, m_get_soil_saturation)]) s)).
  destruct (mocked_air_temp_range pf s1 b) as (x & Hx & Hlo & Hhi).
  exists (entropy pf (rng_pos s) mod 102)%Z, x. split; [|split; [|split; assumption]].
  - apply get_soil_status_returns with (st1 := s1).
    + unfold SoilMonitor.get_soil_saturation, SoilMonitorInterface.get_soil_saturation.
      run. rewrite Hb. apply mocked_saturation_eq.
    + unfold SoilMonitor.get_air_temp, SoilMonitorInterface.get_air_temp.
      run. rewrite Hb. exact Hx.
  - pose proof (Z.mod_pos_bound (entropy pf (rng_pos s)) 102). lia.
Qed.

Lemma status_not_ready pf s (key : string) b ss :
  heap s !! b = Some (AdafruitStemma_obj false ss) →
  SoilService.get_soil_status (wrapper key b) pf s
  = (Ok {[ "saturation" := VInt (-1); "temp" := VInt (-1) ]},
     noted b m_get_air_temp (noted b m_get_soil_saturation s)).
Proof.
  intros Hb. apply get_soil_status_returns with (st1 := noted b m_get_soil_saturation s).
  - apply (not_ready_reads_return pf s b ss Hb).
  - apply (not_ready_reads_return pf (noted b m_get_soil_saturation s) b ss Hb).
Qed.

Lemma current_soil_monitor_eq hs pf s o :
  heap s !! health_backend_of hs = Some o →
  HealthService._get_current_soil_monitor hs pf s
  = (Ok (backend_name o), set_calls (λ c, c ++ [(health_backend_of hs, m_get_name)]) s).
Proof.
  intros H.
  unfold HealthService._get_current_soil_monitor, SoilMonitor.get_name,
    SoilMonitorInterface.get_name. run.
  unfold health_backend_of in H. rewrite H. now destruct o.
Qed.

(** ** The services as configured *)

(** X9: with the simulated back end selected (variable unset, empty or
    ["mocked"]) and the guarded imports passed, the module body of
    [services/soil.py], loaded in a package below the top level, makes its
    [soil_monitor], and from then on every [get_soil_status] returns a
    dictionary of [saturation], an integer from 0 to 101, and [temp], a
    float in [0, 50), after exactly two draws from the random source. *)
Theorem simulated_status pf st st1 package :
  selected_key pf = "mocked" →
  2 ≤ length package →
  import_guard pf st = (Ok tt, st1) →
  ∃ sm st',
    services_soil package pf st = (Ok sm, st')
    ∧ ∀ s, heap st' `prefix_of` heap s →
        ∃ n x,
          fst (SoilService.get_soil_status sm pf s)
          = Ok {[ "saturation" := VInt n; "temp" := VFloat x ]}
          ∧ (0 ≤ n ≤ 101)%Z
          ∧ Float.leb (Float.of_int 0) x = true ∧ Float.ltb x (Float.of_int 50) = true
          ∧ rng_pos (snd (SoilService.get_soil_status sm pf s)) = 2 + rng_pos s.
Proof.
  intros Hkey Hp Hguard.
  eexists _, _. split.
  - rewrite (services_soil_ok _ _ _ _ Hp Hguard). apply SoilMonitor_init_mocked, Hkey.
  - intros s Hs. cbn in Hs.
    destruct (status_mocked pf s "mocked" (length (heap st1))) as (n & x & E & Hn & Hlo & Hhi).
    { apply prefix_lookup_last, Hs. }
    exists n, x. rewrite E. repeat split; assumption || lia.
Qed.

Lemma simulated_status_witness :
  ∃ sm st',
    services_soil ["src"; "services"] workstation initial = (Ok sm, st')
    ∧ ∀ s, heap st' `prefix_of` heap s →
        ∃ n x,
          fst (SoilService.get_soil_status sm workstation s)
          = Ok {[ "saturation" := VInt n; "temp" := VFloat x ]}
          ∧ (0 ≤ n ≤ 101)%Z
          ∧ Float.leb (Float.of_int 0) x = true ∧ Float.ltb x (Float.of_int 50) = true
          ∧ rng_pos (snd (SoilService.get_soil_status sm workstation s)) = 2 + rng_pos s.
Proof.
  apply (simulated_status workstation initial
           (set_stdout (λ out, out ++ ["Unable to load adafruit components"])
              (set_sys_modules (λ ms, ms ∪ {[ "time" ]}) initial))
           ["src"; "services"]); [reflexivity | cbn; lia | reflexivity].
Defined.

(** X10: in the same configuration, with a clock whose readings are
    finite, not negative and non-decreasing, the construction of a
    [HealthService] returns, and every [get_health] after it returns
    exactly [uptime], at least 0, and [soilMonitor], the name
    ["Mocked Soil Monitor"]. *)
Theorem simulated_health pf st :
  selected_key pf = "mocked" →
  (∀ i, Float.timestamp (clock pf i) = true) →
  (∀ i j, i ≤ j → Float.leb (clock pf i) (clock pf j) = true) →
  ∃ hs st',
    HealthService.__init__ pf st = (Ok hs, st')
    ∧ ∀ s, heap st' `prefix_of` heap s → clock_pos st' ≤ clock_pos s →
        ∃ u, fst (HealthService.get_health hs pf s)
             = Ok {[ "uptime" := VInt u; "soilMonitor" := VStr "Mocked Soil Monitor" ]}
             ∧ (0 ≤ u)%Z.
Proof.
  intros Hkey Hfin Hmono.
  eexists _, _. split.
  - apply HealthService_init_eq, SoilMonitor_init_mocked, Hkey.
  - intros s Hs Hc. cbn in Hs, Hc.
    rewrite get_health_eq. cbn zeta.
    cbn [HealthService._start_time health_backend_of HealthService._soil_monitor
         wrapper SoilMonitor._soil_monitor].
    rewrite uptime_value; [| apply Hfin | apply Hfin | apply Hmono; lia].
    change (heap (set_clock_pos S st)) with (heap st). unfold loc.
    rewrite (prefix_lookup_last _ _ _ Hs).
    cbn. eexists. split; [reflexivity|].
    assert (H01 : Float.leb (clock pf (clock_pos st)) (clock pf (clock_pos s)) = true)
      by (apply Hmono; lia).
    assert (H11 : Float.leb (clock pf (clock_pos s)) (clock pf (clock_pos s)) = true)
      by (apply Hmono; lia).
    apply (proj1 (elapsed_mono _ _ _ (Hfin _) (Hfin _) (Hfin _) H01 H11)).
Qed.

Lemma simulated_health_witness :
  ∃ hs st',
    HealthService.__init__ ticking initial = (Ok hs, st')
    ∧ ∀ s, heap st' `prefix_of` heap s → clock_pos st' ≤ clock_pos s →
        ∃ u, fst (HealthService.get_health hs ticking s)
             = Ok {[ "uptime" := VInt u; "soilMonitor" := VStr "Mocked Soil Monitor" ]}
             ∧ (0 ≤ u)%Z.
Proof.
  apply (simulated_health ticking initial).
  - reflexivity.
  - intros [|[|i]]; reflexivity.
  - intros [|[|i]] [|[|j]] H; try lia; reflexivity.
Defined.

(** X11: the hardware back end selected on a platform whose [board]
    raises [NotImplementedError]: the module body of [services/soil.py]
    and the construction of a [HealthService] return all the same; from
    then on every [get_soil_status] returns [-1] for both readings,
    prints the note twice and never calls the driver, and
    [_get_current_soil_monitor] returns ["Adafruit Stemma"]. *)
Theorem degraded_services pf st package :
  environ pf !! "soil_monitor" = Some "adafruitstemma" →
  2 ≤ length package →
  "board" ∉ sys_modules st →
  import_outcome pf "time" = None →
  import_outcome pf "board" = Some NotImplementedError →
  ∃ sm st1 hs st2,
    services_soil package pf st = (Ok sm, st1)
    ∧ HealthService.__init__ pf st1 = (Ok hs, st2)
    ∧ ∀ s, heap st2 `prefix_of` heap s →
        fst (SoilService.get_soil_status sm pf s)
        = Ok {[ "saturation" := VInt (-1); "temp" := VInt (-1) ]}
        ∧ stdout (snd (SoilService.get_soil_status sm pf s))
          = stdout s ++ [not_set_up; not_set_up]
        ∧ hw_pos (snd (SoilService.get_soil_status sm pf s)) = hw_pos s
        ∧ fst (HealthService._get_current_soil_monitor hs pf s) = Ok "Adafruit Stemma".
Proof.
  intros Henv Hp Hb Ht Hi.
  assert (Hkey : selected_key pf = "adafruitstemma") by (now apply selected_key_env).
  pose proof (import_guard_unsupported pf st Hb Ht Hi) as Hguard.
  set (st0 := set_stdout (λ out, out ++ ["Unable to load adafruit components"])
                (set_sys_modules (λ ms, ms ∪ {[ "time" ]}) st)) in *.
  assert (Hl1 : driver_modules_loaded st0 = false).
  { unfold driver_modules_loaded, st0. cbn.
    now rewrite (bool_decide_eq_false_2 _ (board_not_in_with_time _ Hb)). }
  destruct (adafruit_init_missing_state pf st0 Hl1) as (st1 & E1 & Hh1 & Hm1 & _).
  assert (Hl2 : driver_modules_loaded (set_clock_pos S st1) = false).
  { unfold driver_modules_loaded in *. cbn. now rewrite Hm1. }
  destruct (adafruit_init_missing_state pf _ Hl2) as (st2 & E2 & Hh2 & _).
  cbn in Hh2.
  exists (wrapper "adafruitstemma" (length (heap st0))), st1,
    {| HealthService._start_time := clock pf (clock_pos st1);
       HealthService._soil_monitor := wrapper "adafruitstemma" (length (heap st1)) |}, st2.
  split; [|split].
  - rewrite (services_soil_ok _ _ _ _ Hp Hguard), (SoilMonitor_init_adafruit _ _ Hkey), E1.
    reflexivity.
  - apply HealthService_init_eq. rewrite (SoilMonitor_init_adafruit _ _ Hkey), E2.
    reflexivity.
  - intros s Hs. rewrite Hh2 in Hs.
    assert (H2 : heap s !! length (heap st1) = Some (AdafruitStemma_obj false None))
      by apply (prefix_lookup_last _ _ _ Hs).
    assert (H1 : heap s !! length (heap st0) = Some (AdafruitStemma_obj false None)).
    { apply prefix_lookup_last. rewrite <- Hh1. etrans; [|exact Hs].
      apply prefix_app_r. reflexivity. }
    rewrite (status_not_ready pf s _ _ _ H1). cbn.
    split; [reflexivity|]. split; [now rewrite <- app_assoc|]. split; [reflexivity|].
    now rewrite (current_soil_monitor_eq
                   {| HealthService._start_time := clock pf (clock_pos st1);
                      HealthService._soil_monitor :=
                        wrapper "adafruitstemma" (length (heap st1)) |} pf s _ H2).
Qed.

Lemma degraded_services_witness :
  ∃ sm st1 hs st2,
    services_soil ["src"; "services"] unsupported_board initial = (Ok sm, st1)
    ∧ HealthService.__init__ unsupported_board st1 = (Ok hs, st2)
    ∧ ∀ s, heap st2 `prefix_of` heap s →
        fst (SoilService.get_soil_status sm unsupported_board s)
        = Ok {[ "saturation" := VInt (-1); "temp" := VInt (-1) ]}
        ∧ stdout (snd (SoilService.get_soil_status sm unsupported_board s))
          = stdout s ++ [not_set_up; not_set_up]
        ∧ hw_pos (snd (SoilService.get_soil_status sm unsupported_board s)) = hw_pos s
        ∧ fst (HealthService._get_current_soil_monitor hs unsupported_board s)
          = Ok "Adafruit Stemma".
Proof.
  apply (degraded_services unsupported_board initial ["src"; "services"]);
    [reflexivity | cbn; lia | | reflexivity | reflexivity].
  apply not_elem_of_empty.
Defined.

(** ** What the constructions touch *)

Lemma bind_run {A B : Type} (m : M A) (f : A → M B) pf st :
  (m ≫= f) pf st
  = match m pf st with
    | (Ok a, st') => f a pf st'
    | (Raise e, st') => (Raise e, st')
    end.
Proof. reflexivity. Qed.

Section Preserves.
Context {B : Type} (p : state → B).
Hypothesis p_modules : ∀ f st, p (set_sys_modules f st) = p st.
Hypothesis p_stdout : ∀ f st, p (set_stdout f st) = p st.

Lemma preserves_bind {A C : Type} (m : M A) (f : A → M C) :
  preserves p m → (∀ a, preserves p (f a)) → preserves p (m ≫= f).
Proof.
  intros Hm Hf pf st. rewrite bind_run.
  specialize (Hm pf st). destruct (m pf st) as [[a|e] st1]; cbn in *.
  - now rewrite Hf.
  - exact Hm.
Qed.

Lemma preserves_import name : preserves p (import name).
Proof.
  intros pf st. unfold import. run.
  destruct (bool_decide (name ∈ sys_modules st)); run; [done|].
  destruct (import_outcome pf name); cbn; [done | apply p_modules].
Qed.

Lemma preserves_print line : preserves p (print line).
Proof. intros pf st. apply p_stdout. Qed.

Lemma preserves_import_guard : preserves p import_guard.
Proof.
  intros pf st. unfold import_guard, try_except.
  assert (Hbody : preserves p (import "time";; import "board";;
                               import "adafruit_seesaw.seesaw";;
                               print "Loaded adafruit components")).
  { repeat (apply preserves_bind; [apply preserves_import | intros _]).
    apply preserves_print. }
  specialize (Hbody pf st).
  destruct ((import "time";; import "board";; import "adafruit_seesaw.seesaw";;
             print "Loaded adafruit components") pf st) as [[a|e] st1]; cbn in *.
  - exact Hbody.
  - destruct e; cbn; rewrite ?p_stdout; exact Hbody.
Qed.
End Preserves.

(** Construction of [SoilMonitor] reads no clock, draws nothing, reads no
    sensor and calls no method of a back end. *)
Lemma SoilMonitor_init_sensors pf st :
  rng_pos (snd (SoilMonitor.__init__ pf st)) = rng_pos st
  ∧ hw_pos (snd (SoilMonitor.__init__ pf st)) = hw_pos st
  ∧ calls (snd (SoilMonitor.__init__ pf st)) = calls st
  ∧ clock_pos (snd (SoilMonitor.__init__ pf st)) = clock_pos st.
Proof.
  rewrite SoilMonitor_init_with_key. cbn zeta. fold (selected_key pf).
  unfold SoilMonitorFactory.get_soil_monitor. rewrite factory_lookup.
  destruct (decide (selected_key pf = "mocked")) as [->|Hm]; [now cbn|].
  destruct (decide (selected_key pf = "adafruitstemma")) as [->|Ha]; [|now cbn].
  cbn [truthy negb call].
  destruct (driver_modules_loaded st) eqn:Hl.
  - rewrite (adafruit_init_modules_loaded _ _ Hl).
    destruct (drv_I2C pf) as [b|e]; [|now cbn].
    destruct (drv_Seesaw pf b 54) as [dev|e]; now cbn.
  - destruct (adafruit_init_missing_state pf st Hl) as (st' & -> & _ & _ & Hr & Hh & Hc & Hcalls).
    now cbn.
Qed.

Lemma resolve_name_state name package level pf st :
  snd (resolve_name name package level pf st) = st.
Proof.
  unfold resolve_name. destruct package; [reflexivity|]. now case_decide.
Qed.

(** X13: the module body of [services/soil.py] and the construction of a
    [HealthService], whether they return or raise, draw nothing from the
    random source, read no sensor and call no method of a back end; the
    module body does not read the clock, the construction of the health
    service reads it exactly once. *)
Theorem construction_footprint pf st package :
  (rng_pos (snd (services_soil package pf st)) = rng_pos st
   ∧ hw_pos (snd (services_soil package pf st)) = hw_pos st
   ∧ calls (snd (services_soil package pf st)) = calls st
   ∧ clock_pos (snd (services_soil package pf st)) = clock_pos st)
  ∧ (rng_pos (snd (HealthService.__init__ pf st)) = rng_pos st
     ∧ hw_pos (snd (HealthService.__init__ pf st)) = hw_pos st
     ∧ calls (snd (HealthService.__init__ pf st)) = calls st
     ∧ clock_pos (snd (HealthService.__init__ pf st)) = S (clock_pos st)).
Proof.
  split.
  - unfold services_soil. rewrite bind_run.
    pose proof (resolve_name_state ["hardware"; "soil_monitor"] package 2 pf st) as Hres.
    destruct (resolve_name _ package 2 pf st) as [[n|e] s0]; cbn in Hres; subst s0;
      [|now cbn].
    rewrite bind_run.
    pose proof (preserves_import_guard rng_pos (λ _ _, eq_refl) (λ _ _, eq_refl) pf st) as Gr.
    pose proof (preserves_import_guard hw_pos (λ _ _, eq_refl) (λ _ _, eq_refl) pf st) as Gh.
    pose proof (preserves_import_guard calls (λ _ _, eq_refl) (λ _ _, eq_refl) pf st) as Gc.
    pose proof (preserves_import_guard clock_pos (λ _ _, eq_refl) (λ _ _, eq_refl) pf st) as Gk.
    destruct (import_guard pf st) as [[[]|e] s1]; cbn in Gr, Gh, Gc, Gk;
      [|cbn; repeat split; congruence].
    pose proof (SoilMonitor_init_sensors pf s1) as (Sr & Sh & Sc & Sk).
    repeat split; congruence.
  - unfold HealthService.__init__. rewrite bind_run.
    change (time.time pf st) with (Ok (clock pf (clock_pos st)), set_clock_pos S st).
    cbn iota beta. rewrite bind_run.
    pose proof (SoilMonitor_init_sensors pf (set_clock_pos S st)) as (Tr & Th & Tc & Tk).
    destruct (SoilMonitor.__init__ pf (set_clock_pos S st)) as [[sm|e] s1];
      cbn in Tr, Th, Tc, Tk |- *; repeat split; congruence.
Qed.

(** ** The hardware back end at work *)

(** The status of a ready back end: the moisture is read first, the
    temperature second, and the first exception ends the request. *)
Lemma status_ready pf s (key : string) b dev :
  heap s !! b = Some (AdafruitStemma_obj true (Some dev)) →
  fst (SoilService.get_soil_status (wrapper key b) pf s)
  = match drv_moisture_read pf (hw_pos s) with
    | Raise e => Raise e
    | Ok m =>
        match drv_get_temp pf (S (hw_pos s)) with
        | Raise e => Raise e
        | Ok t => Ok {[ "saturation" := VInt m; "temp" := VFloat (py_round pf t 1) ]}
        end
    end.
Proof.
  intros Hb.
  unfold SoilService.get_soil_status, SoilMonitor.get_soil_saturation,
    SoilMonitor.get_air_temp, SoilMonitorInterface.get_soil_saturation,
    SoilMonitorInterface.get_air_temp, _AdafruitStemmaSoilMonitor.get_soil_saturation,
    _AdafruitStemmaSoilMonitor.get_air_temp, _AdafruitStemmaSoilMonitor.loaded,
    _AdafruitStemmaSoilMonitor.ss, Seesaw.moisture_read, Seesaw.get_temp, round, wrapper.
  repeat (run; rewrite ?Hb).
  destruct (drv_moisture_read pf (hw_pos s)) as [m|e]; [|reflexivity].
  repeat (run; rewrite ?Hb).
  now destruct (drv_get_temp pf (S (hw_pos s))) as [t|e].
Qed.

Lemma import_ok pf st (name : string) :
  import_outcome pf name = None →
  import name pf st = (Ok tt, set_sys_modules (λ ms, ms ∪ {[ name ]}) st).
Proof.
  intros Hn. unfold import. run.
  destruct (bool_decide (name ∈ sys_modules st)) eqn:E; run.
  - apply bool_decide_eq_true_1 in E.
    assert (Hms : sys_modules st ∪ {[ name ]} = sys_modules st).
    { rewrite (comm_L (∪)). apply subseteq_union_1_L. now apply singleton_subseteq_l. }
    destruct st as [ms out h r c hw cl]. unfold set_sys_modules. cbn in *.
    now rewrite Hms.
  - now rewrite Hn.
Qed.

Lemma import_guard_loaded pf st :
  import_outcome pf "time" = None →
  import_outcome pf "board" = None →
  import_outcome pf "adafruit_seesaw.seesaw" = None →
  ∃ st1, import_guard pf st = (Ok tt, st1)
         ∧ driver_modules_loaded st1 = true
         ∧ heap st1 = heap st
         ∧ stdout st1 = stdout st ++ ["Loaded adafruit components"].
Proof.
  intros Ht Hb Hs. unfold import_guard, try_except.
  rewrite (bind_ok _ _ _ _ _ _ (import_ok pf _ "time" Ht)).
  rewrite (bind_ok _ _ _ _ _ _ (import_ok pf _ "board" Hb)).
  rewrite (bind_ok _ _ _ _ _ _ (import_ok pf _ "adafruit_seesaw.seesaw" Hs)).
  eexists. split; [reflexivity|]. split; [|split; reflexivity].
  unfold driver_modules_loaded. cbn. apply andb_true_intro. split; apply bool_decide_eq_true_2.
  - apply elem_of_union_l, elem_of_union_r, elem_of_singleton. reflexivity.
  - apply elem_of_union_r, elem_of_singleton. reflexivity.
Qed.

(** X12: the hardware back end selected on a machine whose driver modules
    load and whose sensor answers at address 0x36: the module body of
    [services/soil.py] makes a ready instance over that device; from then
    on [get_soil_status] reads the moisture, then the temperature, and
    returns them as the driver gave them (the temperature through
    [round(_, 1)]); an exception of either read ends the call. *)
Theorem working_sensor_status pf st i2c dev package :
  environ pf !! "soil_monitor" = Some "adafruitstemma" →
  2 ≤ length package →
  import_outcome pf "time" = None →
  import_outcome pf "board" = None →
  import_outcome pf "adafruit_seesaw.seesaw" = None →
  drv_I2C pf = Ok i2c →
  drv_Seesaw pf i2c 0x36 = Ok dev →
  ∃ sm st',
    services_soil package pf st = (Ok sm, st')
    ∧ heap st' = heap st ++ [AdafruitStemma_obj true (Some dev)]
    ∧ ∀ s, heap st' `prefix_of` heap s →
        fst (SoilService.get_soil_status sm pf s)
        = match drv_moisture_read pf (hw_pos s) with
          | Raise e => Raise e
          | Ok m =>
              match drv_get_temp pf (S (hw_pos s)) with
              | Raise e => Raise e
              | Ok t => Ok {[ "saturation" := VInt m; "temp" := VFloat (py_round pf t 1) ]}
              end
          end.
Proof.
  intros Henv Hp Ht Hb Hs Hi2c Hdev.
  assert (Hkey : selected_key pf = "adafruitstemma") by (now apply selected_key_env).
  destruct (import_guard_loaded pf st Ht Hb Hs) as (st1 & Hguard & Hl & Hh1 & _).
  eexists _, _. split; [|split].
  - rewrite (services_soil_ok _ _ _ _ Hp Hguard), (SoilMonitor_init_adafruit _ _ Hkey).
    rewrite (adafruit_init_modules_loaded _ _ Hl), Hi2c, Hdev. reflexivity.
  - cbn. now rewrite Hh1.
  - intros s Hheap. cbn in Hheap.
    apply status_ready with (dev := dev).
    apply prefix_lookup_last, Hheap.
Qed.

Lemma working_sensor_status_witness :
  ∃ sm st',
    services_soil ["src"; "services"] pi_ready initial = (Ok sm, st')
    ∧ heap st' = heap initial ++ [AdafruitStemma_obj true (Some {| ss_bus := I2C_bus; ss_addr := 0x36 |})]
    ∧ ∀ s, heap st' `prefix_of` heap s →
        fst (SoilService.get_soil_status sm pi_ready s)
        = match drv_moisture_read pi_ready (hw_pos s) with
          | Raise e => Raise e
          | Ok m =>
              match drv_get_temp pi_ready (S (hw_pos s)) with
              | Raise e => Raise e
              | Ok t => Ok {[ "saturation" := VInt m; "temp" := VFloat (py_round pi_ready t 1) ]}
              end
          end.
Proof.
  apply (working_sensor_status pi_ready initial I2C_bus _ ["src"; "services"]);
    [reflexivity | cbn; lia | reflexivity ..].
Defined.

(** ** More on the health service *)

(** X14: whatever [get_health] returns has exactly the keys [uptime] and
    [soilMonitor]: an integer, and the name of the class of the instance
    the service holds. *)
Theorem get_health_payload hs pf s d :
  fst (HealthService.get_health hs pf s) = Ok d →
  dom d = {[ "uptime"; "soilMonitor" ]}
  ∧ (∃ u, d !! "uptime" = Some (VInt u))
  ∧ ∃ o, heap s !! health_backend_of hs = Some o
         ∧ d !! "soilMonitor" = Some (VStr (backend_name o)).
Proof.
  rewrite get_health_eq. cbn zeta.
  destruct (Float.to_int _) as [u|e]; [|discriminate].
  destruct (heap s !! _) as [o|]; [|discriminate].
  cbn. intros [= <-]. split; [|split].
  - now rewrite dom_insert_L, dom_singleton_L.
  - now exists u.
  - now exists o.
Qed.

Lemma get_health_payload_witness :
  dom ({[ "uptime" := VInt 0; "soilMonitor" := VStr "Mocked Soil Monitor" ]} : gmap string value)
  = {[ "uptime"; "soilMonitor" ]}
  ∧ (∃ u, ({[ "uptime" := VInt 0; "soilMonitor" := VStr "Mocked Soil Monitor" ]}
            : gmap string value) !! "uptime" = Some (VInt u))
  ∧ ∃ o, heap mocked_heap !! health_backend_of mocked_service = Some o
         ∧ ({[ "uptime" := VInt 0; "soilMonitor" := VStr "Mocked Soil Monitor" ]}
             : gmap string value) !! "soilMonitor" = Some (VStr (backend_name o)).
Proof.
  apply (get_health_payload mocked_service workstation mocked_heap). reflexivity.
Defined.

Section Dyadic.
Local Open Scope Z_scope.

(** [m / 2**k] for [m] of at most 53 bits is a float, with that value. *)
Lemma ldexp_dyadic m k :
  0 ≤ m < 2 ^ 53 → 0 ≤ k ≤ 1074 →
  Float.timestamp (Float.ldexp m (- k)) = true
  ∧ Float.grid (Float.ldexp m (- k)) = m * 2 ^ (1074 - k).
Proof.
  intros Hm Hk. unfold Float.ldexp, Float.timestamp, Float.grid.
  destruct m as [|p|p]; [now cbn | | lia].
  cbn [binary_normalize].
  assert (Hex : round_grid 53 (Z.pos p * 2 ^ (1074 - k)) = Z.pos p * 2 ^ (1074 - k))
    by (apply round_grid_exact; lia).
  destruct (binary_round_grid _ _ prec_pos prec_lt_emax false p (- k)) as (m & e & -> & Hb & He & Hv).
  - change (emin Float.prec Float.emax) with (-1074). lia.
  - change (emin Float.prec Float.emax) with (-1074).
    change (Float.emax - -1074) with (53 + 2045).
    change Float.prec with 53.
    replace (- k - -1074) with (1074 - k) by lia. rewrite Hex, pow2_add by lia.
    pose proof (pow2_le (1074 - k) 2045 ltac:(lia)).
    pose proof (pow2_pos (1074 - k) ltac:(lia)). nia.
  - cbn [nonneg_valid grid cond_Zopp]. split; [exact Hb|].
    rewrite Hv. change (emin Float.prec Float.emax) with (-1074). change Float.prec with 53.
    replace (- k - -1074) with (1074 - k) by lia. exact Hex.
Qed.

Lemma int_sub_dyadic m0 m k :
  0 ≤ m0 ≤ m → m < 2 ^ 53 → 0 ≤ k ≤ 1074 →
  Float.to_int (Float.sub (Float.ldexp m (- k)) (Float.ldexp m0 (- k))) = Ok ((m - m0) / 2 ^ k).
Proof.
  intros Hm0 Hm Hk.
  destruct (ldexp_dyadic m k ltac:(lia) Hk) as [Ht Hg].
  destruct (ldexp_dyadic m0 k ltac:(lia) Hk) as [Ht0 Hg0].
  pose proof (pow2_pos (1074 - k) ltac:(lia)) as HP. pose proof (pow2_pos k ltac:(lia)) as HPk.
  rewrite uptime_value; [| assumption | assumption |].
  - f_equal. unfold elapsed. rewrite Hg, Hg0, <- Z.mul_sub_distr_r.
    replace (2 ^ 1074) with (2 ^ k * 2 ^ (1074 - k))
      by (rewrite <- pow2_add by lia; f_equal; lia).
    destruct (Z.eq_dec m m0) as [->|Hne].
    + rewrite Z.sub_diag, Z.mul_0_l, round_grid_0 by lia. now rewrite !Z.div_0_l by lia.
    + rewrite round_grid_exact by lia. apply Z.div_mul_cancel_r; lia.
  - apply (leb_grid _ _ prec_pos _ _ Ht0 Ht). fold Float.grid. rewrite Hg, Hg0.
    apply Z.mul_le_mono_nonneg_r; lia.
Qed.
End Dyadic.

(** X15: for clock readings on a common binary grid ([m0 / 2**k] at
    construction, [m / 2**k] now, both below [2**53 / 2**k]) the uptime is
    the whole part of the exact difference: [int] truncates, nothing is
    rounded up. *)
Theorem uptime_whole_seconds hs pf s (m0 m k : Z) :
  (0 ≤ m0 ≤ m)%Z → (m < 2 ^ 53)%Z → (0 ≤ k ≤ 1074)%Z →
  HealthService._start_time hs = Float.ldexp m0 (- k) →
  clock pf (clock_pos s) = Float.ldexp m (- k) →
  fst (HealthService._get_total_app_uptime_seconds hs pf s) = Ok ((m - m0) / 2 ^ k)%Z.
Proof.
  intros Hm0 Hm Hk Hstart Hnow. rewrite uptime_eq, Hstart, Hnow. cbn [fst].
  now apply int_sub_dyadic.
Qed.

Lemma uptime_whole_seconds_witness :
  fst (HealthService._get_total_app_uptime_seconds ticking_service ticking
         (set_clock_pos (λ _, 2) ticking_started)) = Ok (13 / 2 ^ 2)%Z.
Proof.
  apply (uptime_whole_seconds ticking_service ticking (set_clock_pos (λ _, 2) ticking_started)
           6800000000 6800000013 2); try reflexivity; lia.
Defined.

(** ** The simulated back end: the range of the saturation *)

(** X16: the saturation of the simulated back end is an integer from 0 to
    101, both included, after one draw; and each of these 102 values is
    returned for some state of the random source. *)
Theorem mocked_saturation_exact_range :
  (∀ pf st self, ∃ n,
      _MockedSoilMonitor.get_soil_saturation self pf st
      = (Ok (VInt n), set_rng_pos S (set_calls (λ c, c ++ [(self, m_get_soil_saturation)]) st))
      ∧ (0 ≤ n ≤ 101)%Z)
  ∧ ∀ n, (0 ≤ n ≤ 101)%Z →
      ∃ pf, ∀ st self,
        fst (_MockedSoilMonitor.get_soil_saturation self pf st) = Ok (VInt n).
Proof.
  split.
  - intros pf st self. eexists. split; [apply mocked_saturation_eq|].
    pose proof (Z.mod_pos_bound (entropy pf (rng_pos st)) 102). lia.
  - intros n Hn. exists (with_entropy (λ _, n) workstation). intros st self.
    now apply mocked_saturation_onto.
Qed.

Lemma mocked_saturation_exact_range_witness :
  ∃ pf, ∀ st self,
    fst (_MockedSoilMonitor.get_soil_saturation self pf st) = Ok (VInt 100).
Proof.
  apply (proj2 mocked_saturation_exact_range 100%Z). lia.
Defined.

(** ** A sequence of requests *)






Section Run.
Variables (pf : platform) (g : app.globals) (c0 : nat) (o : backend_obj).
Hypothesis clock_finite : ∀ i, Float.timestamp (clock pf i) = true.
Hypothesis clock_mono : ∀ i j, i ≤ j → Float.leb (clock pf i) (clock pf j) = true.
Hypothesis started : HealthService._start_time (app.health_service g) = clock pf c0.

End Run.



(** ** The start-up of [app.py] *)

(** X18: the module body of [app.py] never completes.  Line 2 imports
    [services.soil] as a module of the top-level package [services], and
    line 1 of that module asks for [..hardware.soil_monitor], one level
    above the top: the import raises [ImportError] (unless [import flask]
    has raised before it).  The guarded imports are not reached, no back
    end and no service is constructed, nothing is printed, and the clock,
    the random source and the sensor are not read. *)
Theorem startup_never_completes pf st :
  (∃ e, fst (app.startup pf st) = Raise e)
  ∧ (import_outcome pf "flask" = None →
     app.startup pf st
     = (Raise (ImportError "attempted relative import beyond top-level package"),
        set_sys_modules (λ ms, ms ∪ {[ "flask" ]}) st))
  ∧ heap (snd (app.startup pf st)) = heap st
  ∧ stdout (snd (app.startup pf st)) = stdout st
  ∧ clock_pos (snd (app.startup pf st)) = clock_pos st
  ∧ rng_pos (snd (app.startup pf st)) = rng_pos st
  ∧ hw_pos (snd (app.startup pf st)) = hw_pos st
  ∧ calls (snd (app.startup pf st)) = calls st.
Proof.
  rewrite startup_eq. split; [|split].
  - destruct (import "flask" pf st) as [[[]|e] st1]; eexists; reflexivity.
  - intros Hf. now rewrite (import_ok pf st "flask" Hf).
  - unfold import. run.
    destruct (bool_decide ("flask" ∈ sys_modules st)); run; [done|].
    destruct (import_outcome pf "flask"); done.
Qed.

Lemma startup_never_completes_witness :
  app.startup workstation initial
  = (Raise (ImportError "attempted relative import beyond top-level package"),
     set_sys_modules (λ ms, ms ∪ {[ "flask" ]}) initial).
Proof.
  apply (proj1 (proj2 (startup_never_completes workstation initial))). reflexivity.
Defined.
